(** * exchangelib.services: the EWS service dispatch framework

    A shallow embedding of [src/exchangelib/services.py]: response-code
    classification, per-message outcome extraction, the paging loop and the
    chunked dispatcher, followed by the properties of the specification that
    were checked against them.

    Python values are rendered as follows.  A value that may be [None] is an
    [option]; an exception is a value of [exn] and a function that may raise
    returns a [result]; code that talks to the server lives in the
    state-and-exception monad [M] over a [World] that records every posted
    payload. *)

From Stdlib Require Import String Ascii List ZArith Bool Lia Permutation.
From Stdlib Require Import DecimalString.
Import ListNotations.
Local Open Scope string_scope.
Local Open Scope list_scope.

Set Implicit Arguments.
Set Warnings "-register-all".

(** ** XML trees (xml.etree.ElementTree) *)

(** An [Element] has a tag, attributes, optional text and child elements. *)
Inductive Element : Type :=
  Elem (tag : string) (attrib : list (string * string))
       (text : option string) (children : list Element).

Definition tag (e : Element) : string := let (t, _, _, _) := e in t.
Definition attrib (e : Element) : list (string * string) :=
  let (_, a, _, _) := e in a.
Definition text (e : Element) : option string := let (_, _, t, _) := e in t.
Definition children (e : Element) : list Element := let (_, _, _, c) := e in c.

(** [Element.get(key)]: the attribute value, [None] when absent. *)
Fixpoint assoc (key : string) (l : list (string * string)) : option string :=
  match l with
  | [] => None
  | (k, v) :: rest => if String.eqb k key then Some v else assoc key rest
  end.

Definition get (e : Element) (key : string) : option string :=
  assoc key (attrib e).

(** [Element.findall(name)] and [Element.find(name)] for a plain qualified tag
    name (every name the services use is a single tag of the form
    [{namespace}Local] or [Local]): the direct children carrying that tag, in
    document order, and the first of them. *)
Definition findall (e : Element) (name : string) : list Element :=
  filter (fun c => String.eqb (tag c) name) (children e).

Definition find (e : Element) (name : string) : option Element :=
  List.find (fun c => String.eqb (tag c) name) (children e).

(** ** Python strings *)

(** ['%s' % x] for a value that is a string or [None]. *)
Definition py_str (x : option string) : string :=
  match x with Some s => s | None => "None" end.

(** [not x] for a value that is a string or [None]. *)
Definition py_not (x : option string) : bool :=
  match x with None => true | Some s => String.eqb s "" end.

(** [x == 'literal'] for a value that is a string or [None]. *)
Definition py_eq (x : option string) (lit : string) : bool :=
  match x with None => false | Some s => String.eqb s lit end.

(** ['{%s}Local' % NS]. *)
Definition qname (ns local : string) : string :=
  ("{" ++ ns ++ "}" ++ local)%string.

Definition lower_ascii (c : ascii) : ascii :=
  let n := nat_of_ascii c in
  if (65 <=? n)%nat && (n <=? 90)%nat then ascii_of_nat (n + 32) else c.

(** [str.lower()], on the ASCII range. *)
Fixpoint lower (s : string) : string :=
  match s with
  | EmptyString => EmptyString
  | String c rest => String (lower_ascii c) (lower rest)
  end.

(** ** The [errors] module

    [errors.py] is not part of the tree under verification.  The services
    use it in two ways: they import some of its exception classes by name, and
    they look a response code up in [vars(errors)] to find the class to raise.
    Both are taken as parameters: a type of exception classes with Python's
    [issubclass], the imported classes the handlers of this module match on,
    and the name table.  A name of [vars(errors)] is bound to an exception
    class ([errors_vars]) or to something that is none
    ([errors_non_class]): every module binds [__name__] and [__doc__] to a
    string or to [None].  The lookup of such a name succeeds, so that no
    [KeyError] is raised, and calling what it finds is a [TypeError].  An
    instance of a class carries the constructor argument as its [value] (the
    attribute [_raise_warnings] reads). *)
Class ErrorsModule : Type := {
  ExcClass : Type;
  issubclass : ExcClass -> ExcClass -> bool;
  issubclass_refl : forall c, issubclass c c = true;
  EWSWarning : ExcClass;
  TransportError : ExcClass;
  SOAPError : ExcClass;
  ErrorTimeoutExpired : ExcClass;
  ErrorBatchProcessingStopped : ExcClass;
  (** [vars(errors)[code]], [None] standing for [KeyError] *)
  errors_vars : string -> option ExcClass;
  (** the names [vars(errors)] binds to something that cannot be called,
      such as the string under [__name__] *)
  errors_non_class : string -> bool
}.

(** Exceptions: instances of the classes of [errors], and the built-in
    exceptions this module can raise. *)
Inductive exn `{ErrorsModule} : Type :=
| EWS (cls : ExcClass) (value : option string)
| NotImplementedError (msg : string)
| AssertionError
| AttributeError
| TypeError
| ValueError.

Inductive result `{ErrorsModule} (A : Type) : Type :=
| Ok (a : A)
| Raise (e : exn).
Arguments Ok {_ A} a.
Arguments Raise {_ A} e.


(** ** Collaborators outside this module

    The namespace constants of [transport], the helper [util.get_xml_attr]
    (the text of a named child, [None] when there is none), the standard
    library's [tostring] as ['%s'] prints it, and Python's [int] on a string
    ([None] standing for [ValueError]) are not defined in this module and are
    parameters of the development. *)
Class Collaborators : Type := {
  SOAPNS : string;
  TNS : string;
  MNS : string;
  ENS : string;
  get_xml_attr : Element -> string -> option string;
  tostring : Element -> string;
  parse_int : string -> option Z
}.

(** ** Services *)

(** [self.protocol], as far as the services read it. *)
Record Protocol : Type := {
  ews_url : string;
  major_version : Z
}.

(** The class attributes and instance fields of an [EWSService]. *)
Record Service : Type := {
  protocol : Protocol;
  SERVICE_NAME : option string;
  element_container_name : option string;
  element_name : option string;
  extra_element_names : list string;
  CHUNKSIZE : option nat
}.

(** What [_get_element_container] returns: [True] or an element. *)
Inductive retval : Type :=
| RTrue
| RElement (e : Element).

(** One entry of the list [_get_elements_in_response] builds: a value
    extracted from a container by [_get_elements_in_container], or a status
    tuple [(True, None)] / [(False, message)]. *)
Inductive entry (A : Type) : Type :=
| Item (a : A)
| Status (success : bool) (message : option string).
Arguments Item {A} a.
Arguments Status {A} success message.

Section Dispatcher.
Context `{EM : ErrorsModule} `{CO : Collaborators}.

Definition bind {A B : Type} (r : result A) (k : A -> result B) : result B :=
  match r with
  | Ok a => k a
  | Raise e => Raise e
  end.

(** *** EWSService._raise_errors *)
Definition _raise_errors (code text xml : option string) : result retval :=
  if py_eq code "NoError" then Ok RTrue
  else if py_not code then
    Raise (EWS TransportError
      (Some ("Empty ResponseCode in ResponseMessage (MessageText: "
             ++ py_str text ++ ", MessageXml: " ++ py_str xml ++ ")")%string))
  else
    match errors_vars (py_str code) with
    | Some cls => Raise (EWS cls text)
    | None =>
        if errors_non_class (py_str code) then Raise TypeError
        else
          Raise (EWS TransportError
            (Some ("Unknown ResponseCode in ResponseMessage: " ++ py_str code
                   ++ " (MessageText: " ++ py_str text
                   ++ ", MessageXml: " ++ py_str xml ++ ")")%string))
    end.

(** *** EWSService._raise_warnings *)
Definition _raise_warnings (code text xml : option string) : result retval :=
  match _raise_errors code text xml with
  | Raise (EWS cls value) =>
      if issubclass cls ErrorBatchProcessingStopped
      then Raise (EWS EWSWarning value)
      else Raise (EWS cls value)
  | r => r
  end.

(** *** EWSService._get_element_container *)
Definition _get_element_container (message : Element) (name : option string)
  : result retval :=
  let response_class := get message "ResponseClass" in
  let response_code := get_xml_attr message (qname MNS "ResponseCode") in
  let msg_text := get_xml_attr message (qname MNS "MessageText") in
  let msg_xml := get_xml_attr message (qname MNS "MessageXml") in
  if py_eq response_class "Success" && py_eq response_code "NoError" then
    if py_not name then Ok RTrue
    else
      match find message (py_str name) with
      | None =>
          Raise (EWS TransportError
            (Some ("No " ++ py_str name ++ " elements in ResponseMessage ("
                   ++ tostring message ++ ")")%string))
      | Some container => Ok (RElement container)
      end
  else if py_eq response_class "Warning" then
    _raise_warnings response_code msg_text msg_xml
  else
    _raise_errors response_code msg_text msg_xml.

(** [container.findall(name)] where [name] may be [None]: ElementTree then
    fails with a [TypeError] while inspecting the path. *)
Definition py_findall (container : Element) (name : option string)
  : result (list Element) :=
  match name with
  | None => Raise TypeError
  | Some n => Ok (findall container n)
  end.

Definition py_find (container : Element) (name : option string)
  : result (option Element) :=
  match name with
  | None => Raise TypeError
  | Some n => Ok (find container n)
  end.

(** *** EWSService._get_elements_in_container

    The [for] loop extends the list found for the primary name, one extra
    name at a time. *)
Fixpoint extend_extra (container : Element) (elems : list Element)
  (names : list string) : list Element :=
  match names with
  | [] => elems
  | element_name :: rest =>
      extend_extra container (elems ++ findall container element_name) rest
  end.

Definition _get_elements_in_container (self : Service) (container : Element)
  : result (list Element) :=
  bind (py_findall container (element_name self)) (fun elems =>
  Ok (extend_extra container elems (extra_element_names self))).

(** *** EWSService._get_elements_in_response

    [extract] is the service's [_get_elements_in_container] method, which a
    subclass may override.  [try_body] is the body of the [try] statement:
    the entries it adds to the list, or the exception it raises.  A handler
    selects an exception by class: the first clause re-raises a timeout or a
    stopped batch, the second records an [EWSWarning] as [(False, message)];
    anything else propagates. *)
Definition try_body {A : Type} (extract : Element -> result (list A))
  (self : Service) (msg : Element) : result (list (entry A)) :=
  bind (_get_element_container msg (element_container_name self))
  (fun container =>
   match container with
   | RElement container =>
       bind (extract container) (fun found => Ok (map Item found))
   | RTrue => Ok [Status true None]
   end).

Definition caught_as_warning (cls : ExcClass) : bool :=
  negb (issubclass cls ErrorTimeoutExpired
        || issubclass cls ErrorBatchProcessingStopped)
  && issubclass cls EWSWarning.

Fixpoint response_loop {A : Type} (extract : Element -> result (list A))
  (self : Service) (response : list Element) (elements : list (entry A))
  : result (list (entry A)) :=
  match response with
  | [] => Ok elements
  | msg :: rest =>
      match try_body extract self msg with
      | Ok added => response_loop extract self rest (elements ++ added)
      | Raise (EWS cls value) =>
          if caught_as_warning cls
          then response_loop extract self rest
                 (elements ++ [Status false (Some (py_str value))])
          else Raise (EWS cls value)
      | Raise e => Raise e
      end
  end.

Definition _get_elements_in_response {A : Type}
  (extract : Element -> result (list A)) (self : Service)
  (response : list Element) : result (list (entry A)) :=
  response_loop extract self response [].

(** *** EWSService._raise_soap_errors

    Every path through the function raises, so it is rendered as the
    exception it raises. *)
Definition log_prefix (self : Service) : string :=
  ("EWS " ++ ews_url (protocol self) ++ ", service "
   ++ py_str (SERVICE_NAME self))%string.

(** [vars(errors)[code]] for a code that may be [None]. *)
Definition errors_lookup (code : option string) : option ExcClass :=
  match code with
  | None => None
  | Some c => errors_vars c
  end.

(** Whether a code that may be [None] names an attribute of [errors] that
    is no exception class. *)
Definition errors_non_class_lookup (code : option string) : bool :=
  match code with
  | None => false
  | Some c => errors_non_class c
  end.

Definition detail_code (detail : Element) : option string :=
  match find detail (qname ENS "ResponseCode") with
  | Some _ => get_xml_attr detail (qname ENS "ResponseCode")
  | None => None
  end.

Definition detail_msg (detail : Element) : option string :=
  match find detail (qname ENS "Message") with
  | Some _ => get_xml_attr detail (qname ENS "Message")
  | None => None
  end.

Definition _raise_soap_errors (self : Service) (fault : Element) : exn :=
  let faultcode := get_xml_attr fault "faultcode" in
  let faultstring := get_xml_attr fault "faultstring" in
  let faultactor := get_xml_attr fault "faultactor" in
  let soap_error (detail : string) :=
    match errors_lookup faultcode with
    | Some cls => EWS cls faultstring
    | None =>
        if errors_non_class_lookup faultcode then TypeError
        else
          EWS SOAPError
            (Some ("SOAP error code: " ++ py_str faultcode ++ " string: "
                   ++ py_str faultstring ++ " actor: " ++ py_str faultactor
                   ++ " detail: " ++ detail)%string)
    end in
  match find fault "detail" with
  | Some detail =>
      let code := detail_code detail in
      let msg := detail_msg detail in
      match errors_lookup code with
      | Some cls => EWS cls msg
      | None =>
          if errors_non_class_lookup code then TypeError
          else
            soap_error (log_prefix self ++ ": code: " ++ py_str code
                        ++ " msg: " ++ py_str msg
                        ++ " (" ++ tostring detail ++ ")")%string
      end
  | None => soap_error "None"
  end.

(** *** EWSService._get_soap_payload *)
Definition _get_soap_payload (self : Service) (soap_response : Element)
  : result (list Element) :=
  match find soap_response (qname SOAPNS "Body") with
  | None => Raise (EWS TransportError (Some "No Body element in SOAP response"))
  | Some body =>
      match find body (qname MNS (py_str (SERVICE_NAME self) ++ "Response")) with
      | None =>
          match find body (qname SOAPNS "Fault") with
          | None =>
              Raise (EWS SOAPError
                (Some ("Unknown SOAP response: " ++ tostring body)%string))
          | Some fault => Raise (_raise_soap_errors self fault)
          end
      | Some response =>
          match find response (qname MNS "ResponseMessages") with
          | None =>
              Raise (EWS TransportError
                (Some (log_prefix self
                       ++ ": No ResponseMessages element in response")%string))
          | Some response_messages =>
              Ok (findall response_messages
                    (qname MNS (py_str (SERVICE_NAME self)
                                ++ "ResponseMessage")))
          end
      end
  end.

(** *** PagingEWSService._get_page *)

(** [int(x)] for a value that is a string or [None]. *)
Definition py_int (x : option string) : result Z :=
  match x with
  | None => Raise TypeError
  | Some s =>
      match parse_int s with
      | Some z => Ok z
      | None => Raise ValueError
      end
  end.

(** [s.lower() in ('true', '0')]. *)
Definition last_item_flag (s : string) : bool :=
  String.eqb (lower s) "true" || String.eqb (lower s) "0".

Definition _get_page (response : list Element)
  : result (option Element * Z) :=
  match response with
  | [message] =>
      bind (_get_element_container message (Some (qname MNS "RootFolder")))
      (fun r =>
      match r with
      | RTrue => Raise AttributeError
      | RElement rootfolder =>
          match get rootfolder "IncludesLastItemInRange" with
          | None => Raise AttributeError
          | Some flag =>
              let is_last_page := last_item_flag flag in
              let offset := get rootfolder "IndexedPagingOffset" in
              let offset :=
                match offset with
                | None => if negb is_last_page then Some "1" else None
                | Some _ => offset
                end in
              bind (if is_last_page then Ok 0%Z else py_int offset)
              (fun next_offset =>
              bind (py_int (get rootfolder "TotalItemsInView"))
              (fun total =>
              if (total =? 0)%Z then
                if (next_offset =? 0)%Z then Ok (None, next_offset)
                else Raise AssertionError
              else Ok (Some rootfolder, next_offset)))
          end
      end)
  | _ => Raise AssertionError
  end.

End Dispatcher.

(** ** util.chunkify *)

(** Modelled from the spec: [util.chunkify] is not part of the tree under
    verification.  The specification has the item list split into contiguous
    chunks of at most [chunksize] items, preserving input order, every chunk
    but the last being full: chunk [k] is the slice
    [items[k*chunksize : (k+1)*chunksize]].  A chunk size of 0 yields no
    chunk here; [_pool_requests] below does not reach that case. *)
Definition chunkify {I : Type} (items : list I) (chunksize : nat)
  : list (list I) :=
  map (fun k => firstn chunksize (skipn (k * chunksize) items))
      (seq 0 ((length items + chunksize - 1) / chunksize)).

(** ** Requests

    The transport ([util.post_ratelimited] over the protocol's session pool,
    with [transport.wrap] applied to the payload) and the XML parser
    ([util.to_xml]) are collaborators: posting a payload to the remote end
    yields the response text or raises, and changes the remote end;
    parsing yields a tree or an expat error message. *)
Class Transport `{ErrorsModule} : Type := {
  Remote : Type;
  post_ratelimited : Element -> Remote -> result string * Remote;
  to_xml : string -> Element + string
}.

Section Requests.
Context `{EM : ErrorsModule} `{CO : Collaborators} `{TR : @Transport EM}.

(** The world a call runs in: the remote end, and the payloads posted to it
    so far, oldest first. *)
Record World : Type := {
  remote : Remote;
  posted : list Element
}.

(** Computations that may post requests and may raise. *)
Definition M (A : Type) : Type := World -> result A * World.

Definition ret {A : Type} (a : A) : M A := fun w => (Ok a, w).

Definition raise {A : Type} (e : exn) : M A := fun w => (Raise e, w).

Definition lift {A : Type} (r : result A) : M A := fun w => (r, w).

Definition mbind {A B : Type} (m : M A) (k : A -> M B) : M B :=
  fun w =>
    match m w with
    | (Ok a, w') => k a w'
    | (Raise e, w') => (Raise e, w')
    end.

Notation "x <- m ;; k" := (mbind m (fun x => k))
  (at level 61, m at next level, right associativity).

(** *** EWSService._get_response_xml *)
Definition _get_response_xml (self : Service) (payload : Element)
  : M (list Element) :=
  fun w =>
    let (r, remote') := post_ratelimited payload (remote w) in
    let w' := {| remote := remote'; posted := posted w ++ [payload] |} in
    match r with
    | Raise e => (Raise e, w')
    | Ok r_text =>
        match to_xml r_text with
        | inr e =>
            (Raise (EWS SOAPError
                      (Some ("SOAP response is not XML: " ++ e)%string)), w')
        | inl soap_response_payload =>
            (_get_soap_payload self soap_response_payload, w')
        end
    end.

(** *** EWSService._get_elements

    Both handlers re-raise what they caught (the second one after logging),
    so the function is the composition of its two calls. *)
Definition _get_elements {A : Type} (extract : Element -> result (list A))
  (self : Service) (payload : Element) : M (list (entry A)) :=
  response <- _get_response_xml self payload ;;
  lift (_get_elements_in_response extract self response).

(** *** PagingEWSService._paged_call

    [get_payload offset] is the service's [_get_payload] applied to the
    caller's keyword arguments with [offset] set.  The [while True] loop is
    unrolled at most [fuel] times; [None] means that the fuel ran out before
    the loop ended. *)
Fixpoint paged_loop (fuel : nat) (get_payload : Z -> result Element)
  (self : Service) (offset : Z) (elements : list Element) (w : World)
  : option (result (list Element) * World) :=
  match fuel with
  | O => None
  | S fuel' =>
      match get_payload offset with
      | Raise e => Some (Raise e, w)
      | Ok payload =>
          match _get_response_xml self payload w with
          | (Raise e, w1) => Some (Raise e, w1)
          | (Ok response, w1) =>
              match _get_page response with
              | Raise e => Some (Raise e, w1)
              | Ok (page, next_offset) =>
                  let extended :=
                    match page with
                    | Some page =>
                        bind (py_find page (element_container_name self))
                        (fun container =>
                        match container with
                        | None =>
                            Raise (EWS TransportError
                              (Some ("No "
                                     ++ py_str (element_container_name self)
                                     ++ " elements in ResponseMessage ("
                                     ++ tostring page ++ ")")%string))
                        | Some container =>
                            bind (_get_elements_in_container self container)
                            (fun found => Ok (elements ++ found))
                        end)
                    | None => Ok elements
                    end in
                  match extended with
                  | Raise e => Some (Raise e, w1)
                  | Ok elements' =>
                      if (next_offset =? 0)%Z then Some (Ok elements', w1)
                      else paged_loop fuel' get_payload self next_offset
                             elements' w1
                  end
              end
          end
      end
  end.

Definition _paged_call (fuel : nat) (get_payload : Z -> result Element)
  (self : Service) (w : World) : option (result (list Element) * World) :=
  paged_loop fuel get_payload self 0%Z [] w.

(** *** EWSPooledService._pool_requests

    [thread_pool.map(func, tasks)] runs [func] on every task in worker
    threads and returns the results in task order.  A task posts one request,
    so an execution is the order in which the tasks get to run and complete:
    [sched], a permutation of the task indices.  Each task runs against the
    world its predecessors in [sched] left; the results are filed under the
    task's index; if some task raised, the map raises the failure that was
    recorded first. *)
Fixpoint run_tasks {X Y : Type} (func : X -> M Y) (tasks : list X)
  (sched : list nat) (w : World) : list (nat * result Y) * World :=
  match sched with
  | [] => ([], w)
  | i :: rest =>
      match nth_error tasks i with
      | None => run_tasks func tasks rest w
      | Some x =>
          let (r, w1) := func x w in
          let (completed, w2) := run_tasks func tasks rest w1 in
          ((i, r) :: completed, w2)
      end
  end.

Fixpoint first_failure {Y : Type} (completed : list (nat * result Y))
  : option exn :=
  match completed with
  | [] => None
  | (_, Raise e) :: _ => Some e
  | (_, Ok _) :: rest => first_failure rest
  end.

Fixpoint filed {Y : Type} (i : nat) (completed : list (nat * result Y))
  : list Y :=
  match completed with
  | [] => []
  | (j, r) :: rest =>
      if Nat.eqb i j
      then match r with Ok y => [y] | Raise _ => [] end
      else filed i rest
  end.

Definition thread_pool_map {X Y : Type} (func : X -> M Y) (tasks : list X)
  (sched : list nat) : M (list Y) :=
  fun w =>
    let (completed, w') := run_tasks func tasks sched w in
    match first_failure completed with
    | Some e => (Raise e, w')
    | None =>
        (Ok (flat_map (fun i => filed i completed) (seq 0 (length tasks))), w')
    end.

(** [payload_func] is the folder method that renders a chunk of items as a
    payload ([get_xml], [create_xml], ...).  A [CHUNKSIZE] of [None] or 0
    cannot be stepped by. *)
Definition _pool_requests {I A : Type} (extract : Element -> result (list A))
  (self : Service) (sched : list nat) (payload_func : list I -> Element)
  (items : list I) : M (list (entry A)) :=
  match CHUNKSIZE self with
  | None => raise TypeError
  | Some O => raise ValueError
  | Some chunksize =>
      let func := fun n => _get_elements extract self (payload_func n) in
      outputs <- thread_pool_map func (chunkify items chunksize) sched ;;
      ret (concat outputs)
  end.

(** *** GetServerTimeZones *)

(** [_get_payload(self, returnfulltimezonedata=False)], called with the
    caller's keyword arguments (a name and the truth value of what it is bound
    to): a keyword the signature does not have is a [TypeError]. *)
Definition GetServerTimeZones_get_payload (self : Service)
  (kwargs : list (string * bool)) : result Element :=
  if forallb (fun kv => String.eqb (fst kv) "returnfulltimezonedata") kwargs
  then
    let returnfulltimezonedata :=
      match kwargs with
      | (_, v) :: _ => v
      | [] => false
      end in
    Ok (Elem ("m:" ++ py_str (SERVICE_NAME self))
             [("ReturnFullTimeZoneData",
               if returnfulltimezonedata then "true" else "false")]
             None [])
  else Raise TypeError.

(** The override of [_get_elements_in_container]: [(Id, Name)] pairs. *)
Definition GetServerTimeZones_get_elements_in_container (self : Service)
  (container : Element) : result (list (option string * option string)) :=
  bind (py_findall container (element_name self)) (fun timezonedefs =>
  Ok (map (fun timezonedef => (get timezonedef "Id", get timezonedef "Name"))
          timezonedefs)).

Definition GetServerTimeZones_call (self : Service)
  (kwargs : list (string * bool))
  : M (list (entry (option string * option string))) :=
  if (major_version (protocol self) <? 14)%Z then
    raise (NotImplementedError
             (py_str (SERVICE_NAME self)
              ++ " is only supported for Exchange 2010 servers and later"))
  else
    payload <- lift (GetServerTimeZones_get_payload self kwargs) ;;
    _get_elements (GetServerTimeZones_get_elements_in_container self) self
                  payload.

End Requests.

(** ** The declared operations *)

Section Operations.
Context `{CO : Collaborators}.
Variable protocol_ : Protocol.

Definition folder_element_names : list string :=
  [qname TNS "CalendarFolder"; qname TNS "ContactsFolder";
   qname TNS "SearchFolder"; qname TNS "TasksFolder"].

Definition GetServerTimeZones : Service :=
  {| protocol := protocol_;
     SERVICE_NAME := Some "GetServerTimeZones";
     element_container_name := Some (qname MNS "TimeZoneDefinitions");
     element_name := Some (qname TNS "TimeZoneDefinition");
     extra_element_names := [];
     CHUNKSIZE := None |}.

(** [item_type] is [folder.item_model.ITEM_TYPE], which [call] reads to set
    [element_name]. *)
Definition GetItem (item_type : string) : Service :=
  {| protocol := protocol_;
     SERVICE_NAME := Some "GetItem";
     element_container_name := Some (qname MNS "Items");
     element_name := Some (qname TNS item_type);
     extra_element_names := [];
     CHUNKSIZE := Some 100 |}.

Definition CreateItem (item_type : string) : Service :=
  {| protocol := protocol_;
     SERVICE_NAME := Some "CreateItem";
     element_container_name := Some (qname MNS "Items");
     element_name := Some (qname TNS item_type);
     extra_element_names := [];
     CHUNKSIZE := Some 25 |}.

Definition DeleteItem : Service :=
  {| protocol := protocol_;
     SERVICE_NAME := Some "DeleteItem";
     element_container_name := None;
     element_name := None;
     extra_element_names := [];
     CHUNKSIZE := Some 25 |}.

Definition UpdateItem (item_type : string) : Service :=
  {| protocol := protocol_;
     SERVICE_NAME := Some "UpdateItem";
     element_container_name := Some (qname MNS "Items");
     element_name := Some (qname TNS item_type);
     extra_element_names := [];
     CHUNKSIZE := Some 25 |}.

Definition FindItem (item_type : string) : Service :=
  {| protocol := protocol_;
     SERVICE_NAME := Some "FindItem";
     element_container_name := Some (qname TNS "Items");
     element_name := Some (qname TNS item_type);
     extra_element_names := [];
     CHUNKSIZE := None |}.

Definition FindFolder : Service :=
  {| protocol := protocol_;
     SERVICE_NAME := Some "FindFolder";
     element_container_name := Some (qname TNS "Folders");
     element_name := Some (qname TNS "Folder");
     extra_element_names := folder_element_names;
     CHUNKSIZE := None |}.

Definition GetFolder : Service :=
  {| protocol := protocol_;
     SERVICE_NAME := Some "GetFolder";
     element_container_name := Some (qname MNS "Folders");
     element_name := Some (qname TNS "Folder");
     extra_element_names := folder_element_names;
     CHUNKSIZE := None |}.

Definition ResolveNames : Service :=
  {| protocol := protocol_;
     SERVICE_NAME := Some "ResolveNames";
     element_container_name := Some (qname MNS "ResolutionSet");
     element_name := Some (qname TNS "Resolution");
     extra_element_names := [];
     CHUNKSIZE := None |}.

End Operations.

(** ** A sample environment

    A small concrete instance of every parameter, on which the definitions
    above can be evaluated: an [errors] module with a handful of classes and
    no inheritance between them, the EWS namespaces, a [get_xml_attr] that
    reads the text of the first child with the given tag, plain decimal
    numerals for [int], and two transports over fixture documents. *)
Module Sample.

Inductive cls : Type :=
| cEWSWarning | cTransportError | cSOAPError | cErrorTimeoutExpired
| cErrorBatchProcessingStopped | cErrorAccessDenied | cErrorServerBusy.

Definition cls_id (c : cls) : nat :=
  match c with
  | cEWSWarning => 0 | cTransportError => 1 | cSOAPError => 2
  | cErrorTimeoutExpired => 3 | cErrorBatchProcessingStopped => 4
  | cErrorAccessDenied => 5 | cErrorServerBusy => 6
  end.

Definition cls_sub (c d : cls) : bool := Nat.eqb (cls_id c) (cls_id d).

Definition cls_sub_refl (c : cls) : cls_sub c c = true :=
  Nat.eqb_refl (cls_id c).

Definition names : list (string * cls) :=
  [("EWSWarning", cEWSWarning); ("TransportError", cTransportError);
   ("SOAPError", cSOAPError); ("ErrorTimeoutExpired", cErrorTimeoutExpired);
   ("ErrorBatchProcessingStopped", cErrorBatchProcessingStopped);
   ("ErrorAccessDenied", cErrorAccessDenied);
   ("ErrorServerBusy", cErrorServerBusy)].

Definition lookup (code : string) : option cls :=
  option_map snd (List.find (fun kv => String.eqb (fst kv) code) names).

(** The attributes every module has besides what it defines. *)
Definition dunder_names : list string :=
  ["__name__"; "__doc__"; "__package__"; "__loader__"; "__spec__";
   "__file__"; "__cached__"; "__builtins__"].

Definition errors : ErrorsModule :=
  {| ExcClass := cls;
     issubclass := cls_sub;
     issubclass_refl := cls_sub_refl;
     EWSWarning := cEWSWarning;
     TransportError := cTransportError;
     SOAPError := cSOAPError;
     ErrorTimeoutExpired := cErrorTimeoutExpired;
     ErrorBatchProcessingStopped := cErrorBatchProcessingStopped;
     errors_vars := lookup;
     errors_non_class := fun name => existsb (String.eqb name) dunder_names |}.

Definition child_text (tree : Element) (name : string) : option string :=
  match find tree name with
  | None => None
  | Some elem => if py_not (text elem) then None else text elem
  end.

Definition decimal (s : string) : option Z :=
  option_map Z.of_int (DecimalString.NilZero.int_of_string s).

Definition collaborators : Collaborators :=
  {| SOAPNS := "http://schemas.xmlsoap.org/soap/envelope/";
     TNS := "http://schemas.microsoft.com/exchange/services/2006/types";
     MNS := "http://schemas.microsoft.com/exchange/services/2006/messages";
     ENS := "http://schemas.microsoft.com/exchange/services/2006/errors";
     get_xml_attr := child_text;
     tostring := tag;
     parse_int := decimal |}.

#[local] Existing Instance errors.
#[local] Existing Instance collaborators.

Definition exchange2007 : Protocol :=
  {| ews_url := "https://example.com/EWS/Exchange.asmx"; major_version := 8 |}.

Definition exchange2010 : Protocol :=
  {| ews_url := "https://example.com/EWS/Exchange.asmx"; major_version := 14 |}.

(** *** Fixture documents *)

Definition leaf (name : string) (content : string) : Element :=
  Elem name [] (Some content) [].

(** A response message of operation [op]. *)
Definition message (op response_class : string) (body : list Element)
  : Element :=
  Elem (qname MNS (op ++ "ResponseMessage"))
       [("ResponseClass", response_class)] None body.

Definition response_code (code : string) : Element :=
  leaf (qname MNS "ResponseCode") code.

Definition message_text (content : string) : Element :=
  leaf (qname MNS "MessageText") content.

Definition envelope (op : string) (messages : list Element) : Element :=
  Elem (qname SOAPNS "Envelope") [] None
    [Elem (qname SOAPNS "Body") [] None
       [Elem (qname MNS (op ++ "Response")) [] None
          [Elem (qname MNS "ResponseMessages") [] None messages]]].

Definition item (id : string) : Element :=
  Elem (qname TNS "Message") [] None
    [Elem (qname TNS "ItemId") [("Id", id)] None []].

(** A successful [GetItem] message whose container holds two items, and one
    whose container is empty. *)
Definition two_items : Element :=
  message "GetItem" "Success"
    [response_code "NoError";
     Elem (qname MNS "Items") [] None [item "a"; item "b"]].

Definition no_items : Element :=
  message "GetItem" "Success"
    [response_code "NoError"; Elem (qname MNS "Items") [] None []].

(** Two messages that differ in their [ResponseClass] only. *)
Definition error_class_no_error : Element :=
  message "GetItem" "Error"
    [response_code "NoError";
     Elem (qname MNS "Items") [] None [item "a"]].

Definition success_class_no_error : Element :=
  message "GetItem" "Success"
    [response_code "NoError";
     Elem (qname MNS "Items") [] None [item "a"]].

(** Warnings. *)
Definition warning_access_denied : Element :=
  message "DeleteItem" "Warning"
    [response_code "ErrorAccessDenied"; message_text "Access is denied."].

Definition warning_batch_stopped : Element :=
  message "DeleteItem" "Warning"
    [response_code "ErrorBatchProcessingStopped";
     message_text "Batch processing stopped."].

Definition delete_ok : Element :=
  message "DeleteItem" "Success" [response_code "NoError"].

(** A folder container that lists a calendar folder before a plain one. *)
Definition calendar_folder : Element :=
  Elem (qname TNS "CalendarFolder") [] None [].

Definition plain_folder : Element := Elem (qname TNS "Folder") [] None [].

Definition folders : Element :=
  Elem (qname TNS "Folders") [] None [calendar_folder; plain_folder].

(** A SOAP fault that carries a response code in its detail. *)
Definition detail_access_denied : Element :=
  Elem "detail" [] None
    [leaf (qname ENS "ResponseCode") "ErrorAccessDenied";
     leaf (qname ENS "Message") "Access is denied."].

Definition fault_access_denied : Element :=
  Elem (qname SOAPNS "Fault") [] None
    [leaf "faultcode" "a:ErrorAccessDenied";
     leaf "faultstring" "Access is denied.";
     detail_access_denied].

(** Pages of a [FindItem] retrieval: a root folder with its paging
    attributes and items, the message that holds it, and the document. *)
Definition root_folder (attributes : list (string * string))
  (items : list Element) : Element :=
  Elem (qname MNS "RootFolder") attributes None
    [Elem (qname TNS "Items") [] None items].

Definition find_item_message (rootfolder : Element) : Element :=
  message "FindItem" "Success" [response_code "NoError"; rootfolder].

Definition page (rootfolder : Element) : Element :=
  envelope "FindItem" [find_item_message rootfolder].

Definition empty_view_more : Element :=
  root_folder [("IndexedPagingOffset", "10"); ("TotalItemsInView", "0");
               ("IncludesLastItemInRange", "false")] [].

Definition empty_view_last : Element :=
  root_folder [("TotalItemsInView", "0");
               ("IncludesLastItemInRange", "true")] [].

Definition empty_view_no_offset : Element :=
  root_folder [("TotalItemsInView", "0");
               ("IncludesLastItemInRange", "false")] [].

Definition first_page_no_offset : Element :=
  root_folder [("TotalItemsInView", "3");
               ("IncludesLastItemInRange", "false")] [item "a"; item "b"].

Definition last_page : Element :=
  root_folder [("IndexedPagingOffset", "3"); ("TotalItemsInView", "3");
               ("IncludesLastItemInRange", "true")] [item "c"].

Definition documents : list (string * Element) :=
  [("empty_view_more.xml", page empty_view_more);
   ("empty_view_last.xml", page empty_view_last);
   ("empty_view_no_offset.xml", page empty_view_no_offset);
   ("first_page_no_offset.xml", page first_page_no_offset);
   ("last_page.xml", page last_page)].

Definition parse_fixture (r_text : string) : Element + string :=
  match List.find (fun kv => String.eqb (fst kv) r_text) documents with
  | Some (_, tree) => inl tree
  | None => inr "syntax error: line 1, column 0"
  end.

(** The remote end is the queue of documents it will answer with. *)
Definition answer_next (payload : Element) (queue : list string)
  : result string * list string :=
  match queue with
  | [] => (Raise (EWS TransportError (Some "No more responses")), [])
  | r_text :: rest => (Ok r_text, rest)
  end.

Definition canned : Transport :=
  {| Remote := list string;
     post_ratelimited := answer_next;
     to_xml := parse_fixture |}.

(** A remote end that returns every item a [GetItem] payload asks for.  An
    item id is one character; the response text lists the ids asked for and
    stands for a response with one successful message per id, each holding
    the item of that id. *)
Definition item_of (id : ascii) : Element := item (String id "").

Definition requested_ids (payload : Element) : string :=
  String.concat "" (map (fun c => py_str (get c "Id")) (children payload)).

Definition return_items (payload : Element) (r : unit)
  : result string * unit :=
  (Ok (requested_ids payload), r).

Definition items_response (r_text : string) : Element + string :=
  inl (envelope "GetItem"
         (map (fun id =>
                 message "GetItem" "Success"
                   [response_code "NoError";
                    Elem (qname MNS "Items") [] None [item_of id]])
              (list_ascii_of_string r_text))).

Definition item_store : Transport :=
  {| Remote := unit;
     post_ratelimited := return_items;
     to_xml := items_response |}.

(** [folder.get_xml], reduced to the item ids. *)
Definition get_xml (ids : list ascii) : Element :=
  Elem "m:GetItem" [] None
    (map (fun id => Elem "t:ItemId" [("Id", String id "")] None []) ids).


(** [FindItem._get_payload], reduced to the paging view. *)
Definition find_item_request (offset : string) : Element :=
  Elem "m:FindItem" [("Traversal", "Shallow")] None
    [Elem "m:IndexedPageItemView"
       [("Offset", offset); ("BasePoint", "Beginning")] None []].

Definition find_item_payload (offset : Z) : result Element :=
  Ok (find_item_request
        (DecimalString.NilZero.string_of_int (Z.to_int offset))).

(** The world of the fixture transport: what the remote end will answer,
    and what was posted so far. *)
Definition serving (queue : list string) (requests : list Element)
  : @World errors canned :=
  @Build_World errors canned queue requests.

(** The world of the item store. *)
Definition store (requests : list Element) : @World errors item_store :=
  @Build_World errors item_store tt requests.

End Sample.

(** ** Request payloads

    The [_get_payload] methods build the request element by element.
    [Element(tag, **attributes)] is [Elem tag attributes None []], and
    [parent.append(child)] adds a last child.  [util.set_xml_attr], which
    changes a tree in place, is not part of the tree under verification: the
    parameter gives the tree as the call leaves it. *)
Class XmlSetter : Type := {
  set_xml_attr : Element -> string -> string -> Element
}.

Definition append (parent child : Element) : Element :=
  Elem (tag parent) (attrib parent) (text parent) (children parent ++ [child]).

(** [str(n)] for an integer. *)
Definition py_str_int (n : Z) : string :=
  DecimalString.NilZero.string_of_int (Z.to_int n).

(** What the services read from a folder: the protocol of its account, the
    element [folder.folderid_xml()] returns and the item type of its item
    model. *)
Record Folder : Type := {
  folder_protocol : Protocol;
  folderid_xml : Element;
  ITEM_TYPE : string
}.

(** [self.element_name = name]. *)
Definition with_element_name (self : Service) (name : string) : Service :=
  {| protocol := protocol self;
     SERVICE_NAME := SERVICE_NAME self;
     element_container_name := element_container_name self;
     element_name := Some name;
     extra_element_names := extra_element_names self;
     CHUNKSIZE := CHUNKSIZE self |}.

Section Payloads.
Context `{EM : ErrorsModule} `{XS : XmlSetter}.

(** The [t:AdditionalProperties] element, one [t:FieldURI] appended per
    field. *)
Definition additional_properties (additional_fields : list string)
  : Element :=
  fold_left
    (fun additionalproperties field_uri =>
       append additionalproperties
              (Elem "t:FieldURI" [("FieldURI", field_uri)] None []))
    additional_fields
    (Elem "t:AdditionalProperties" [] None []).

(** The shape element the folder and item requests start with: the base
    shape is set on it, and the additional properties are appended when
    there are any. *)
Definition shape_element (name shape : string)
  (additional_fields : option (list string)) : Element :=
  let itemshape := set_xml_attr (Elem name [] None []) "t:BaseShape" shape in
  match additional_fields with
  | Some (field_uri :: fields) =>
      append itemshape (additional_properties (field_uri :: fields))
  | _ => itemshape
  end.

(** *** FindItem._get_payload

    [restriction] is [None] or the [xml] of the restriction given. *)
Definition FindItem_get_payload (self : Service) (folder : Folder)
  (additional_fields : option (list string)) (restriction : option Element)
  (shape depth : string) (offset : Z) : Element :=
  let finditem :=
    Elem ("m:" ++ py_str (SERVICE_NAME self)) [("Traversal", "Shallow")]
         None [] in
  let itemshape := shape_element "m:ItemShape" shape additional_fields in
  let finditem := append finditem itemshape in
  let indexedpageviewitem :=
    Elem "m:IndexedPageItemView"
         [("Offset", py_str_int offset); ("BasePoint", "Beginning")]
         None [] in
  let finditem := append finditem indexedpageviewitem in
  let finditem :=
    match restriction with
    | Some restriction_xml => append finditem restriction_xml
    | None => finditem
    end in
  let parentfolderids :=
    append (Elem "m:ParentFolderIds" [] None []) (folderid_xml folder) in
  append finditem parentfolderids.

(** *** FindFolder._get_payload *)
Definition FindFolder_get_payload (self : Service) (folder : Folder)
  (additional_fields : option (list string)) (shape depth : string)
  (offset : Z) : result Element :=
  let findfolder :=
    Elem ("m:" ++ py_str (SERVICE_NAME self)) [("Traversal", depth)]
         None [] in
  let foldershape := shape_element "m:FolderShape" shape additional_fields in
  let findfolder := append findfolder foldershape in
  bind
    (if (14 <=? major_version (folder_protocol folder))%Z then
       Ok (append findfolder
             (Elem "m:IndexedPageFolderView"
                   [("Offset", py_str_int offset); ("BasePoint", "Beginning")]
                   None []))
     else if (offset =? 0)%Z then Ok findfolder
     else Raise AssertionError)
  (fun findfolder =>
   let parentfolderids :=
     append (Elem "m:ParentFolderIds" [] None []) (folderid_xml folder) in
   Ok (append findfolder parentfolderids)).

(** *** GetFolder._get_payload *)
Definition GetFolder_get_payload (self : Service) (folder : Folder)
  (additional_fields : option (list string)) (shape : string) : Element :=
  let getfolder :=
    Elem ("m:" ++ py_str (SERVICE_NAME self)) [] None [] in
  let foldershape := shape_element "m:FolderShape" shape additional_fields in
  let getfolder := append getfolder foldershape in
  let folderids :=
    append (Elem "m:FolderIds" [] None []) (folderid_xml folder) in
  append getfolder folderids.

(** *** ResolveNames._get_payload *)
Definition ResolveNames_get_payload (self : Service)
  (unresolvedentries : list string) (returnfullcontactdata : bool)
  : result Element :=
  let payload :=
    Elem ("m:" ++ py_str (SERVICE_NAME self))
         [("ReturnFullContactData",
           if returnfullcontactdata then "true" else "false")]
         None [] in
  match unresolvedentries with
  | [] => Raise AssertionError
  | _ =>
      Ok (fold_left
            (fun payload entry => set_xml_attr payload "m:UnresolvedEntry" entry)
            unresolvedentries payload)
  end.

End Payloads.

(** ** The [call] methods *)

Section Calls.
Context `{EM : ErrorsModule} `{CO : Collaborators} `{TR : @Transport EM}
        `{XS : XmlSetter}.

(** [FindItem.call]: the element name is set from the item type of the
    folder; then a paged retrieval whose payloads are those of
    [FindItem._get_payload] at the successive offsets. *)
Definition FindItem_call (fuel : nat) (self : Service) (folder : Folder)
  (additional_fields : option (list string)) (restriction : option Element)
  (shape depth : string) (w : World)
  : option (result (list Element) * World) :=
  let self := with_element_name self (qname TNS (ITEM_TYPE folder)) in
  _paged_call fuel
    (fun offset =>
       Ok (FindItem_get_payload self folder additional_fields restriction
             shape depth offset))
    self w.

(** [FindFolder.call]. *)
Definition FindFolder_call (fuel : nat) (self : Service) (folder : Folder)
  (additional_fields : option (list string)) (shape depth : string)
  (w : World) : option (result (list Element) * World) :=
  _paged_call fuel
    (FindFolder_get_payload self folder additional_fields shape depth)
    self w.

(** [ResolveNames.call]. *)
Definition ResolveNames_call (self : Service)
  (unresolvedentries : list string) (returnfullcontactdata : bool)
  : M (list (entry Element)) :=
  mbind
    (lift (ResolveNames_get_payload self unresolvedentries
             returnfullcontactdata))
    (fun payload =>
       _get_elements (_get_elements_in_container self) self payload).

(** *** One turn of the paging loop

    What a fetched page adds to the elements collected so far: nothing for
    an empty view, otherwise the elements of the page's container. *)
Definition page_elements (self : Service) (page : option Element)
  : result (list Element) :=
  match page with
  | None => Ok []
  | Some page =>
      bind (py_find page (element_container_name self))
      (fun container =>
       match container with
       | None =>
           Raise (EWS TransportError
             (Some ("No " ++ py_str (element_container_name self)
                    ++ " elements in ResponseMessage ("
                    ++ tostring page ++ ")")%string))
       | Some container => _get_elements_in_container self container
       end)
  end.

(** A fetch at [offset]: the payload is built and posted, and the single
    message of the response is read as a page. *)
Inductive fetches (get_payload : Z -> result Element) (self : Service)
  (offset : Z) (w : World)
  : Element -> option Element -> Z -> World -> Prop :=
| fetches_page payload message page next_offset w1 :
    get_payload offset = Ok payload ->
    _get_response_xml self payload w = (Ok [message], w1) ->
    _get_page [message] = Ok (page, next_offset) ->
    fetches get_payload self offset w payload page next_offset w1.

(** A retrieval that starts at [offset] in world [w]: the payloads it posts,
    the elements it collects and the world it ends in.  It ends with the
    first page whose next offset is 0. *)
Inductive retrieves (get_payload : Z -> result Element) (self : Service)
  : Z -> World -> list Element -> list Element -> World -> Prop :=
| retrieves_last offset w payload page w1 added :
    fetches get_payload self offset w payload page 0%Z w1 ->
    page_elements self page = Ok added ->
    retrieves get_payload self offset w [payload] added w1
| retrieves_more offset w payload page next_offset w1 added
                 payloads collected w2 :
    fetches get_payload self offset w payload page next_offset w1 ->
    next_offset <> 0%Z ->
    page_elements self page = Ok added ->
    retrieves get_payload self next_offset w1 payloads collected w2 ->
    retrieves get_payload self offset w (payload :: payloads)
              (added ++ collected) w2.

End Calls.

(** ** More fixtures

    A [set_xml_attr] that appends a child with the given text, two folders,
    and further documents and remote ends for the sample environment. *)
Module Fixtures.
Import Sample.

#[local] Existing Instance Sample.errors.
#[local] Existing Instance Sample.collaborators.

Definition setter : XmlSetter :=
  {| set_xml_attr := fun tree name value =>
       append tree (Elem name [] (Some value) []) |}.

Definition folder_on (p : Protocol) : Folder :=
  {| folder_protocol := p;
     folderid_xml := Elem "t:DistinguishedFolderId" [("Id", "root")] None [];
     ITEM_TYPE := "Message" |}.

(** A stopped batch reported with class ['Error']. *)
Definition error_batch_stopped : Element :=
  message "DeleteItem" "Error"
    [response_code "ErrorBatchProcessingStopped";
     message_text "Batch processing stopped."].

(** Pages of a [FindItem] retrieval: one that announces offset 2, one whose
    offset is no number, one whose root folder has no container. *)
Definition page_offset_2 : Element :=
  root_folder [("IndexedPagingOffset", "2"); ("TotalItemsInView", "3");
               ("IncludesLastItemInRange", "false")] [item "a"; item "b"].

Definition page_bad_offset : Element :=
  root_folder [("IndexedPagingOffset", "two"); ("TotalItemsInView", "3");
               ("IncludesLastItemInRange", "false")] [item "a"; item "b"].

Definition page_no_container : Element :=
  Elem (qname MNS "RootFolder")
       [("TotalItemsInView", "3"); ("IncludesLastItemInRange", "true")]
       None [].

(** A page of a [FindFolder] listing that announces offset 2. *)
Definition folders_more : Element :=
  Elem (qname MNS "RootFolder")
       [("IndexedPagingOffset", "2"); ("TotalItemsInView", "4");
        ("IncludesLastItemInRange", "false")]
       None [folders].

Definition folders_message : Element :=
  message "FindFolder" "Success" [response_code "NoError"; folders_more].

(** An envelope that holds a fault. *)
Definition fault_envelope : Element :=
  Elem (qname SOAPNS "Envelope") [] None
    [Elem (qname SOAPNS "Body") [] None [fault_access_denied]].

Definition documents : list (string * Element) :=
  [("page_offset_2.xml", page page_offset_2);
   ("page_bad_offset.xml", page page_bad_offset);
   ("page_no_container.xml", page page_no_container);
   ("folders_more.xml", envelope "FindFolder" [folders_message]);
   ("fault.xml", fault_envelope)].

Definition parse_fixture (r_text : string) : Element + string :=
  match List.find (fun kv => String.eqb (fst kv) r_text) documents with
  | Some (_, tree) => inl tree
  | None => Sample.parse_fixture r_text
  end.

(** A remote end that answers from a queue of documents. *)
Definition canned : Transport :=
  {| Remote := list string;
     post_ratelimited := answer_next;
     to_xml := parse_fixture |}.

Definition serving (queue : list string) (requests : list Element)
  : @World errors canned :=
  @Build_World errors canned queue requests.

(** A remote end that answers every request with the same page, which is
    not the last one. *)
Definition always_more (payload : Element) (r : unit) : result string * unit :=
  (Ok "page_offset_2.xml", r).

Definition endless : Transport :=
  {| Remote := unit;
     post_ratelimited := always_more;
     to_xml := parse_fixture |}.



(** A remote end that acknowledges every id of a [DeleteItem] payload: the
    response text has one character per id and stands for a response with as
    many successful messages. *)
Definition acknowledge (payload : Element) (r : unit) : result string * unit :=
  (Ok (String.concat "" (map (fun _ => "+") (children payload))), r).

Definition acknowledged (r_text : string) : Element + string :=
  inl (envelope "DeleteItem" (repeat delete_ok (String.length r_text))).

Definition acknowledging : Transport :=
  {| Remote := unit;
     post_ratelimited := acknowledge;
     to_xml := acknowledged |}.

(** [folder.delete_xml], reduced to the item ids. *)
Definition delete_xml (ids : list ascii) : Element :=
  Elem "m:DeleteItem" [] None
    (map (fun id => Elem "t:ItemId" [("Id", String id "")] None []) ids).






End Fixtures.

(** ** Vocabulary of the properties *)

Section Vocabulary.
Context `{EM : ErrorsModule} `{CO : Collaborators}.

(** What one response message adds to the list under construction: the
    extracted values of its container, a success tuple, or the tuple of a
    caught warning. *)
Inductive contributes {A : Type} (extract : Element -> result (list A))
  (self : Service) (msg : Element) : list (entry A) -> Prop :=
| contributes_items container found :
    _get_element_container msg (element_container_name self)
      = Ok (RElement container) ->
    extract container = Ok found ->
    contributes extract self msg (map Item found)
| contributes_success :
    _get_element_container msg (element_container_name self) = Ok RTrue ->
    contributes extract self msg [Status true None]
| contributes_warning cls value :
    try_body extract self msg = Raise (EWS cls value) ->
    caught_as_warning cls = true ->
    contributes extract self msg [Status false (Some (py_str value))].

(** The three children [_get_element_container] reads from a message. *)
Definition response_code_of (msg : Element) : option string :=
  get_xml_attr msg (qname MNS "ResponseCode").

Definition message_text_of (msg : Element) : option string :=
  get_xml_attr msg (qname MNS "MessageText").

Definition message_xml_of (msg : Element) : option string :=
  get_xml_attr msg (qname MNS "MessageXml").

End Vocabulary.

(** * Properties *)

(** ** Strings *)

Lemma append_eqb_prefix (p a b : string) :
  String.eqb (p ++ a) (p ++ b) = String.eqb a b.
Proof.
  induction p as [|c p IH]; simpl; [reflexivity|].
  now rewrite Ascii.eqb_refl.
Qed.

Lemma qname_eqb (ns a b : string) :
  String.eqb (qname ns a) (qname ns b) = String.eqb a b.
Proof.
  unfold qname.
  change ("{" ++ ns ++ "}" ++ a)%string
    with (String "{" (ns ++ String "}" a))%string.
  change ("{" ++ ns ++ "}" ++ b)%string
    with (String "{" (ns ++ String "}" b))%string.
  simpl. rewrite append_eqb_prefix. simpl. reflexivity.
Qed.

Lemma py_eq_true (x : option string) (lit : string) :
  py_eq x lit = true <-> x = Some lit.
Proof.
  destruct x as [s|]; simpl.
  - rewrite String.eqb_eq. split; congruence.
  - split; discriminate.
Qed.

Lemma py_not_true (x : option string) :
  py_not x = true <-> x = None \/ x = Some "".
Proof.
  destruct x as [s|]; simpl.
  - rewrite String.eqb_eq. split; [intros ->; now right|].
    intros [H|H]; congruence.
  - split; auto.
Qed.

(** ** Response-code classification *)

Section Classification.
Context `{EM : ErrorsModule} `{CO : Collaborators}.

Lemma raise_errors_ok (code text xml : option string) (r : retval) :
  _raise_errors code text xml = Ok r -> r = RTrue /\ code = Some "NoError".
Proof.
  unfold _raise_errors.
  destruct (py_eq code "NoError") eqn:E.
  - intros [= <-]. split; [reflexivity|]. now apply py_eq_true.
  - destruct (py_not code); [discriminate|].
    destruct (errors_vars (py_str code)); [discriminate|].
    destruct (errors_non_class (py_str code)); discriminate.
Qed.

Lemma raise_errors_known (c : string) (text xml : option string)
  (cls : ExcClass) :
  c <> "NoError" -> c <> "" -> errors_vars c = Some cls ->
  _raise_errors (Some c) text xml = Raise (EWS cls text).
Proof.
  intros Hne Hnn Hcls. unfold _raise_errors. simpl.
  destruct (String.eqb_spec c "NoError"); [contradiction|].
  destruct (String.eqb_spec c ""); [contradiction|].
  now rewrite Hcls.
Qed.

Lemma raise_warnings_ok (code text xml : option string) (r : retval) :
  _raise_warnings code text xml = Ok r -> r = RTrue /\ code = Some "NoError".
Proof.
  unfold _raise_warnings.
  destruct (_raise_errors code text xml) as [a|e] eqn:E.
  - intros [= <-]. eapply raise_errors_ok; eassumption.
  - destruct e; try discriminate.
    destruct (issubclass cls ErrorBatchProcessingStopped); discriminate.
Qed.

(** X26.  [_raise_errors], case by case: it succeeds exactly when the code is
    ['NoError']; an absent or empty code raises the transport error for an
    empty response code; a code that names an exception class of [errors]
    raises that class, constructed from the message text; a code that names
    another attribute of [errors] raises [TypeError]; a code [errors] does
    not bind raises the transport error for an unknown response code, whose
    message spells out the code, the text and the xml. *)
Theorem raise_errors_classification (code text xml : option string) :
  ((exists r, _raise_errors code text xml = Ok r) <-> code = Some "NoError")
  /\ (code = Some "NoError" -> _raise_errors code text xml = Ok RTrue)
  /\ (code = None \/ code = Some "" ->
      _raise_errors code text xml =
      Raise (EWS TransportError
        (Some ("Empty ResponseCode in ResponseMessage (MessageText: "
               ++ py_str text ++ ", MessageXml: " ++ py_str xml ++ ")")%string)))
  /\ (forall c, code = Some c -> c <> "NoError" -> c <> "" ->
      match errors_vars c with
      | Some cls => _raise_errors code text xml = Raise (EWS cls text)
      | None =>
          if errors_non_class c
          then _raise_errors code text xml = Raise TypeError
          else
            _raise_errors code text xml =
            Raise (EWS TransportError
              (Some ("Unknown ResponseCode in ResponseMessage: " ++ c
                     ++ " (MessageText: " ++ py_str text
                     ++ ", MessageXml: " ++ py_str xml ++ ")")%string))
      end).
Proof.
  repeat split.
  - intros [r H]. now apply raise_errors_ok in H.
  - intros ->. now exists RTrue.
  - now intros ->.
  - intros [-> | ->]; reflexivity.
  - intros c -> Hne Hnn.
    destruct (errors_vars c) as [cls|] eqn:E.
    + now apply raise_errors_known.
    + unfold _raise_errors. simpl.
      destruct (String.eqb_spec c "NoError"); [contradiction|].
      destruct (String.eqb_spec c ""); [contradiction|].
      rewrite E. now destruct (errors_non_class c).
Qed.

(** C5.  The code misses a case of the claim.  A response code that is the
    name of an attribute of the [errors] module other than an exception
    class (every module has [__name__] and [__doc__]) is found by the lookup
    in [vars(errors)], so that no [KeyError] leads to the transport error for
    an unknown response code; calling the attribute raises [TypeError], and
    that is what [_raise_errors] raises, whatever the text and the xml. *)
Theorem raise_errors_non_class_attribute (code : string)
  (text xml : option string) :
  code <> "NoError" -> code <> "" ->
  errors_vars code = None ->
  errors_non_class code = true ->
  _raise_errors (Some code) text xml = Raise TypeError
  /\ _raise_errors (Some code) text xml
     <> Raise (EWS TransportError
          (Some ("Unknown ResponseCode in ResponseMessage: " ++ code
                 ++ " (MessageText: " ++ py_str text
                 ++ ", MessageXml: " ++ py_str xml ++ ")")%string)).
Proof.
  intros Hne Hnn Hclass Hother.
  assert (H : _raise_errors (Some code) text xml = Raise TypeError).
  { unfold _raise_errors. simpl.
    destruct (String.eqb_spec code "NoError"); [contradiction|].
    destruct (String.eqb_spec code ""); [contradiction|].
    now rewrite Hclass, Hother. }
  split; [assumption|]. rewrite H. discriminate.
Qed.

(** C6.  For a code the taxonomy knows (a name of [vars(errors)], which is
    neither empty nor the success code), a SOAP fault whose detail carries
    that code as its [ResponseCode] raises an error of the same class as a
    response message with that code; the one is constructed from the
    detail's message, the other from the message text. *)
Theorem soap_fault_same_class (self : Service) (fault detail : Element)
  (code : string) (cls : ExcClass) (text xml : option string) :
  errors_vars code = Some cls ->
  code <> "NoError" -> code <> "" ->
  find fault "detail" = Some detail ->
  find detail (qname ENS "ResponseCode") <> None ->
  get_xml_attr detail (qname ENS "ResponseCode") = Some code ->
  _raise_soap_errors self fault = EWS cls (detail_msg detail)
  /\ _raise_errors (Some code) text xml = Raise (EWS cls text).
Proof.
  intros Hcls Hne Hnn Hdetail Hfound Hcode. split.
  - unfold _raise_soap_errors. rewrite Hdetail.
    unfold detail_code.
    destruct (find detail (qname ENS "ResponseCode")); [|contradiction].
    rewrite Hcode. simpl. now rewrite Hcls.
  - now apply raise_errors_known.
Qed.

End Classification.

(** ** Per-message outcomes *)

Section Outcomes.
Context `{EM : ErrorsModule} `{CO : Collaborators}.

Lemma container_unfold (msg : Element) (name : option string) :
  _get_element_container msg name =
  if py_eq (get msg "ResponseClass") "Success"
     && py_eq (response_code_of msg) "NoError"
  then
    if py_not name then Ok RTrue
    else
      match find msg (py_str name) with
      | None =>
          Raise (EWS TransportError
            (Some ("No " ++ py_str name ++ " elements in ResponseMessage ("
                   ++ tostring msg ++ ")")%string))
      | Some container => Ok (RElement container)
      end
  else if py_eq (get msg "ResponseClass") "Warning" then
    _raise_warnings (response_code_of msg) (message_text_of msg)
                    (message_xml_of msg)
  else
    _raise_errors (response_code_of msg) (message_text_of msg)
                  (message_xml_of msg).
Proof. reflexivity. Qed.

(** Without a container name no message resolves to an element. *)
Lemma no_name_no_element (msg : Element) (name : option string)
  (container : Element) :
  py_not name = true ->
  _get_element_container msg name <> Ok (RElement container).
Proof.
  intros Hname. rewrite container_unfold, Hname.
  destruct (_ && _); [discriminate|].
  destruct (py_eq (get msg "ResponseClass") "Warning"); intros H.
  - apply raise_warnings_ok in H. destruct H; discriminate.
  - apply raise_errors_ok in H. destruct H; discriminate.
Qed.

(** C9, as the code has it.  For a message whose [ResponseClass] is not
    ['Warning']: when the [ResponseCode] is not ['NoError'] the class plays
    no part, the outcome is the error [_raise_errors] raises for the code;
    when the [ResponseCode] is ['NoError'] the class decides: ['Success']
    yields [True] without a container name and otherwise the named container
    (a transport error when it is missing), any other class yields [True]
    whatever the container name. *)
Theorem container_by_code_and_class (msg : Element) (name : option string) :
  py_eq (get msg "ResponseClass") "Warning" = false ->
  (response_code_of msg <> Some "NoError" ->
   _get_element_container msg name =
     _raise_errors (response_code_of msg) (message_text_of msg)
                   (message_xml_of msg)
   /\ exists e, _get_element_container msg name = Raise e)
  /\ (response_code_of msg = Some "NoError" ->
      get msg "ResponseClass" <> Some "Success" ->
      _get_element_container msg name = Ok RTrue)
  /\ (response_code_of msg = Some "NoError" ->
      get msg "ResponseClass" = Some "Success" ->
      _get_element_container msg name =
        if py_not name then Ok RTrue
        else
          match find msg (py_str name) with
          | Some container => Ok (RElement container)
          | None =>
              Raise (EWS TransportError
                (Some ("No " ++ py_str name
                       ++ " elements in ResponseMessage ("
                       ++ tostring msg ++ ")")%string))
          end).
Proof.
  intros Hwarning. rewrite container_unfold, Hwarning.
  repeat split.
  - destruct (py_eq (response_code_of msg) "NoError") eqn:E.
    + apply py_eq_true in E. contradiction.
    + now rewrite andb_false_r.
  - destruct (py_eq (response_code_of msg) "NoError") eqn:E.
    + apply py_eq_true in E. contradiction.
    + rewrite andb_false_r.
      destruct (_raise_errors _ _ _) as [r|e] eqn:R.
      * apply raise_errors_ok in R. destruct R; contradiction.
      * now exists e.
  - intros Hcode Hclass.
    destruct (py_eq (get msg "ResponseClass") "Success") eqn:E.
    + apply py_eq_true in E. contradiction.
    + simpl. now rewrite Hcode.
  - intros Hcode Hclass. rewrite Hcode, Hclass. simpl.
    destruct (py_not name); [reflexivity|].
    now destruct (find msg (py_str name)).
Qed.

(** C3, as the code has it.  Provided [EWSWarning] derives neither from
    [ErrorTimeoutExpired] nor from [ErrorBatchProcessingStopped], a message
    whose [ResponseClass] is ['Warning'] is handled by its code: ['NoError']
    appends [(True, None)]; a code that names a stopped-batch class appends
    [(False, text)] and raises nothing, the loop going on with the next
    message; in every other case the error [_raise_errors] raises for the
    code is raised for the warning as well, and the dispatcher propagates it
    unless its class is an [EWSWarning]. *)
Theorem warning_outcomes {A : Type} (extract : Element -> result (list A))
  (self : Service) (msg : Element) (rest : list Element)
  (elements : list (entry A)) :
  issubclass EWSWarning ErrorTimeoutExpired = false ->
  issubclass EWSWarning ErrorBatchProcessingStopped = false ->
  get msg "ResponseClass" = Some "Warning" ->
  (response_code_of msg = Some "NoError" ->
   response_loop extract self (msg :: rest) elements =
   response_loop extract self rest (elements ++ [Status true None]))
  /\ (forall code cls,
      response_code_of msg = Some code ->
      code <> "NoError" -> code <> "" ->
      errors_vars code = Some cls ->
      issubclass cls ErrorBatchProcessingStopped = true ->
      response_loop extract self (msg :: rest) elements =
      response_loop extract self rest
        (elements ++ [Status false (Some (py_str (message_text_of msg)))]))
  /\ (forall e,
      _raise_errors (response_code_of msg) (message_text_of msg)
                    (message_xml_of msg) = Raise e ->
      (forall cls value, e = EWS cls value ->
         issubclass cls ErrorBatchProcessingStopped = false) ->
      _get_element_container msg (element_container_name self) = Raise e
      /\ ((forall cls value, e = EWS cls value ->
             issubclass cls EWSWarning = false) ->
          response_loop extract self (msg :: rest) elements = Raise e)).
Proof.
  intros Htimeout Hstopped Hclass.
  assert (Hunfold : _get_element_container msg (element_container_name self)
            = _raise_warnings (response_code_of msg) (message_text_of msg)
                              (message_xml_of msg)).
  { rewrite container_unfold, Hclass. reflexivity. }
  split; [|split].
  - intros Hcode. simpl. unfold try_body. rewrite Hunfold, Hcode. reflexivity.
  - intros code cls Hcode Hne Hnn Hcls Hsub.
    simpl. unfold try_body. rewrite Hunfold. unfold _raise_warnings.
    rewrite Hcode, (raise_errors_known _ _ Hne Hnn Hcls), Hsub.
    cbn [bind]. unfold caught_as_warning.
    now rewrite Htimeout, Hstopped, issubclass_refl.
  - intros e He Hnot.
    assert (Hraise : _raise_warnings (response_code_of msg)
              (message_text_of msg) (message_xml_of msg) = Raise e).
    { unfold _raise_warnings. rewrite He.
      destruct e as [cls value| | | | |]; try reflexivity.
      now rewrite (Hnot cls value eq_refl). }
    split; [congruence|].
    intros Hnowarn. simpl. unfold try_body. rewrite Hunfold, Hraise.
    cbn [bind]. destruct e as [cls value| | | | |]; try reflexivity.
    unfold caught_as_warning.
    rewrite (Hnowarn cls value eq_refl). now rewrite andb_false_r.
Qed.

(** The loop appends to its accumulator, one message at a time. *)
Lemma response_loop_complete {A : Type}
  (extract : Element -> result (list A)) (self : Service)
  (response : list Element) (parts : list (list (entry A))) :
  Forall2 (contributes extract self) response parts ->
  forall elements,
    response_loop extract self response elements
    = Ok (elements ++ concat parts).
Proof.
  induction 1 as [|msg part response parts Hmsg _ IH]; intros elements; simpl.
  - now rewrite app_nil_r.
  - destruct Hmsg as [container found Hc Hx | Hc | cls value Hc Hw];
      unfold try_body in *;
      [rewrite Hc; cbn [bind]; rewrite Hx | rewrite Hc | rewrite Hc, Hw];
      cbn [bind]; rewrite IH, <- app_assoc; reflexivity.
Qed.

Lemma response_loop_sound {A : Type}
  (extract : Element -> result (list A)) (self : Service)
  (response : list Element) :
  forall elements result_list,
    response_loop extract self response elements = Ok result_list ->
    exists parts,
      Forall2 (contributes extract self) response parts
      /\ result_list = elements ++ concat parts.
Proof.
  induction response as [|msg rest IH]; intros elements result_list; simpl.
  - intros [= <-]. exists []. split; [constructor|]. now rewrite app_nil_r.
  - destruct (try_body extract self msg) as [added|e] eqn:Hbody.
    + intros H. apply IH in H. destruct H as (parts & Hparts & ->).
      exists (added :: parts). split; [|simpl; now rewrite <- app_assoc].
      constructor; [|assumption].
      unfold try_body in Hbody.
      destruct (_get_element_container msg (element_container_name self))
        as [[|container]|e] eqn:Hc; cbn [bind] in Hbody; [| |discriminate].
      * injection Hbody as <-. now apply contributes_success.
      * destruct (extract container) as [found|e] eqn:Hx;
          cbn [bind] in Hbody; [|discriminate].
        injection Hbody as <-. now apply contributes_items with container.
    + destruct e as [cls value| | | | |]; try discriminate.
      destruct (caught_as_warning cls) eqn:Hw; [|discriminate].
      intros H. apply IH in H. destruct H as (parts & Hparts & ->).
      exists ([Status false (Some (py_str value))] :: parts). split.
      * constructor; [eapply contributes_warning; eassumption|assumption].
      * simpl. now rewrite <- app_assoc.
Qed.

(** C1, as the code has it.  The list [_get_elements_in_response] returns
    is the concatenation, in message order, of what each message contributes:
    the values extracted from its container (none, one or several), or one
    status tuple.  It returns such a list exactly when every message
    contributes.  For a service without a container name every message
    contributes one tuple, so that the list has one entry per message, in
    message order. *)
Theorem response_entries_in_message_order {A : Type}
  (extract : Element -> result (list A)) (self : Service)
  (response : list Element) :
  (forall parts,
     Forall2 (contributes extract self) response parts ->
     _get_elements_in_response extract self response = Ok (concat parts))
  /\ (forall elements,
      _get_elements_in_response extract self response = Ok elements ->
      exists parts,
        Forall2 (contributes extract self) response parts
        /\ elements = concat parts)
  /\ (py_not (element_container_name self) = true ->
      forall elements,
        _get_elements_in_response extract self response = Ok elements ->
        length elements = length response
        /\ Forall2 (fun msg e => contributes extract self msg [e])
                   response elements).
Proof.
  split; [|split].
  - intros parts Hparts. unfold _get_elements_in_response.
    now rewrite (response_loop_complete Hparts).
  - intros elements H. apply response_loop_sound in H.
    destruct H as (parts & Hparts & ->). now exists parts.
  - intros Hname elements H. apply response_loop_sound in H.
    destruct H as (parts & Hparts & ->). simpl.
    assert (Hsingle : Forall2 (fun msg e => contributes extract self msg [e])
                        response (concat parts)).
    { induction Hparts as [|msg part response parts Hmsg _ IH]; simpl.
      - constructor.
      - destruct Hmsg as [container found Hc Hx | Hc | cls value Hc Hw].
        + now apply no_name_no_element in Hc.
        + constructor; [now apply contributes_success|assumption].
        + constructor; [eapply contributes_warning; eassumption|assumption]. }
    split; [|assumption].
    symmetry. eapply Forall2_length. eassumption.
Qed.

(** ** Elements of a container *)

Lemma extend_extra_flat_map (container : Element) (names : list string) :
  forall elems,
    extend_extra container elems names
    = elems ++ flat_map (findall container) names.
Proof.
  induction names as [|name names IH]; intros elems; simpl.
  - now rewrite app_nil_r.
  - now rewrite IH, app_assoc.
Qed.

(** C10.  [_get_elements_in_container] returns the children that carry the
    primary element name, in document order, followed by the children that
    carry the first extra name, then the second, and so on.  For
    [FindFolder] and [GetFolder] a container that lists a calendar folder
    before a plain folder therefore yields the plain folder first. *)
Theorem elements_grouped_by_name (self : Service) (container : Element)
  (name : string) :
  element_name self = Some name ->
  _get_elements_in_container self container
  = Ok (findall container name
        ++ flat_map (findall container) (extra_element_names self))
  /\ (forall p t a x calendar plain,
      tag calendar = qname TNS "CalendarFolder" ->
      tag plain = qname TNS "Folder" ->
      children (Elem t a x [calendar; plain]) = [calendar; plain]
      /\ _get_elements_in_container (FindFolder p)
           (Elem t a x [calendar; plain]) = Ok [plain; calendar]
      /\ _get_elements_in_container (GetFolder p)
           (Elem t a x [calendar; plain]) = Ok [plain; calendar]).
Proof.
  intros Hname. split.
  - unfold _get_elements_in_container. rewrite Hname. simpl.
    now rewrite extend_extra_flat_map.
  - intros p t a x calendar plain Hcal Hplain.
    split; [reflexivity|].
    unfold _get_elements_in_container.
    cbn [FindFolder GetFolder element_name extra_element_names py_findall
         bind folder_element_names extend_extra].
    unfold findall. cbn [children filter].
    rewrite Hcal, Hplain, !qname_eqb. split; reflexivity.
Qed.

End Outcomes.

(** ** Chunks *)

Lemma concat_slices {I : Type} (n : nat) :
  0 < n ->
  forall k (items : list I),
    length items <= k * n ->
    concat (map (fun j => firstn n (skipn (j * n) items)) (seq 0 k)) = items.
Proof.
  intros Hn. induction k as [|k IH]; intros items Hlen.
  - destruct items; [reflexivity|simpl in Hlen; lia].
  - cbn [seq map concat]. rewrite <- seq_shift, map_map.
    rewrite (map_ext _ (fun j => firstn n (skipn (j * n) (skipn n items)))).
    + rewrite IH; [apply firstn_skipn|].
      rewrite length_skipn. lia.
    + intros j. rewrite skipn_skipn.
      now replace (S j * n) with (j * n + n) by lia.
Qed.

(** The chunks of a list, put back together, are the list. *)
Lemma chunkify_concat {I : Type} (items : list I) (chunksize : nat) :
  0 < chunksize -> concat (chunkify items chunksize) = items.
Proof.
  intros Hn. unfold chunkify. apply concat_slices; [assumption|].
  pose proof (Nat.div_mod_eq (length items + chunksize - 1) chunksize) as Hdiv.
  pose proof (Nat.mod_upper_bound (length items + chunksize - 1) chunksize)
    as Hmod.
  nia.
Qed.


(** ** Requests *)

Section RequestProperties.
Context `{EM : ErrorsModule} `{CO : Collaborators} `{TR : @Transport EM}.

(** A call of [_get_response_xml] posts its payload, and nothing else. *)
Lemma get_response_xml_posted (self : Service) (payload : Element)
  (w : World) :
  posted (snd (_get_response_xml self payload w)) = posted w ++ [payload].
Proof.
  unfold _get_response_xml.
  destruct (post_ratelimited payload (remote w)) as [[r_text|e] remote'];
    [destruct (to_xml r_text)|]; reflexivity.
Qed.

Lemma get_elements_posted {A : Type} (extract : Element -> result (list A))
  (self : Service) (payload : Element) (w : World) :
  posted (snd (_get_elements extract self payload w)) = posted w ++ [payload].
Proof.
  unfold _get_elements, mbind, lift.
  pose proof (get_response_xml_posted self payload w) as H.
  destruct (_get_response_xml self payload w) as [[response|e] w'];
    exact H.
Qed.

(** C8.  Against a server whose major version is below 14,
    [GetServerTimeZones.call] raises [NotImplementedError] and leaves the
    world as it found it: nothing is posted, and the keyword arguments are
    not looked at, so that no payload is built from them. *)
Theorem time_zones_version_gate (self : Service)
  (kwargs : list (string * bool)) (w : World) :
  (major_version (protocol self) < 14)%Z ->
  GetServerTimeZones_call self kwargs w =
    (Raise (NotImplementedError
              (py_str (SERVICE_NAME self)
               ++ " is only supported for Exchange 2010 servers and later")),
     w)
  /\ posted (snd (GetServerTimeZones_call self kwargs w)) = posted w
  /\ GetServerTimeZones_call self kwargs w = GetServerTimeZones_call self [] w.
Proof.
  intros Hversion. unfold GetServerTimeZones_call.
  apply Z.ltb_lt in Hversion. rewrite Hversion. repeat split.
Qed.

(** *** Paging *)

Section Page.
Variable get_payload : Z -> result Element.
Variable self : Service.
Variables (offset : Z) (payload : Element) (w w1 : World).
Variables (message rootfolder : Element) (flag : string).
Hypothesis Hpayload : get_payload offset = Ok payload.
Hypothesis Hresponse : _get_response_xml self payload w = (Ok [message], w1).
Hypothesis Hroot :
  _get_element_container message (Some (qname MNS "RootFolder"))
  = Ok (RElement rootfolder).
Hypothesis Hflag : get rootfolder "IncludesLastItemInRange" = Some flag.

(** The page as [_get_page] computes it from the root folder. *)
Lemma get_page_unfold :
  _get_page [message] =
  bind (if last_item_flag flag then Ok 0%Z
        else py_int (match get rootfolder "IndexedPagingOffset" with
                     | None => Some "1"
                     | Some o => Some o
                     end))
  (fun next_offset =>
   bind (py_int (get rootfolder "TotalItemsInView"))
   (fun total =>
    if (total =? 0)%Z then
      if (next_offset =? 0)%Z then Ok (None, next_offset)
      else Raise AssertionError
    else Ok (Some rootfolder, next_offset))).
Proof.
  unfold _get_page. rewrite Hroot. cbn [bind]. rewrite Hflag.
  destruct (last_item_flag flag); [reflexivity|].
  cbn [negb]. now destruct (get rootfolder "IndexedPagingOffset").
Qed.

(** One turn of the loop, once the page is known. *)
Lemma paged_loop_step (fuel : nat) (elements : list Element)
  (page : option Element) (next_offset : Z) :
  _get_page [message] = Ok (page, next_offset) ->
  paged_loop (S fuel) get_payload self offset elements w =
  match
    match page with
    | Some page =>
        bind (py_find page (element_container_name self))
        (fun container =>
         match container with
         | None =>
             Raise (EWS TransportError
               (Some ("No " ++ py_str (element_container_name self)
                      ++ " elements in ResponseMessage ("
                      ++ tostring page ++ ")")%string))
         | Some container =>
             bind (_get_elements_in_container self container)
                  (fun found => Ok (elements ++ found))
         end)
    | None => Ok elements
    end
  with
  | Raise e => Some (Raise e, w1)
  | Ok elements' =>
      if (next_offset =? 0)%Z then Some (Ok elements', w1)
      else paged_loop fuel get_payload self next_offset elements' w1
  end.
Proof.
  intros Hpage. cbn [paged_loop].
  rewrite Hpayload, Hresponse, Hpage. reflexivity.
Qed.

Lemma paged_loop_raise (fuel : nat) (elements : list Element) (e : exn) :
  _get_page [message] = Raise e ->
  paged_loop (S fuel) get_payload self offset elements w = Some (Raise e, w1).
Proof.
  intros Hpage. cbn [paged_loop].
  rewrite Hpayload, Hresponse, Hpage. reflexivity.
Qed.

(** C2, as the code has it.  Let a fetched page have a
    [TotalItemsInView] that parses to 0.  If the page is flagged as the last
    one, or its [IndexedPagingOffset] parses to 0, the page contributes
    nothing and the loop stops after this fetch, returning what it had.  If
    the page is not flagged as the last one and its next offset (the
    [IndexedPagingOffset], or 1 when there is none) is not 0, the assertion
    of [_get_page] fails and the retrieval raises [AssertionError]. *)
Theorem empty_view_stops_or_asserts (fuel : nat) (elements : list Element) :
  py_int (get rootfolder "TotalItemsInView") = Ok 0%Z ->
  ((last_item_flag flag = true
    \/ exists o, get rootfolder "IndexedPagingOffset" = Some o
                 /\ parse_int o = Some 0%Z) ->
   _get_page [message] = Ok (None, 0%Z)
   /\ paged_loop (S fuel) get_payload self offset elements w
      = Some (Ok elements, w1)
   /\ posted w1 = posted w ++ [payload])
  /\ (last_item_flag flag = false ->
      forall next_offset,
        py_int (match get rootfolder "IndexedPagingOffset" with
                | None => Some "1"
                | Some o => Some o
                end) = Ok next_offset ->
        next_offset <> 0%Z ->
        _get_page [message] = Raise AssertionError
        /\ paged_loop (S fuel) get_payload self offset elements w
           = Some (Raise AssertionError, w1)).
Proof.
  intros Htotal. split.
  - intros Hzero.
    assert (Hpage : _get_page [message] = Ok (None, 0%Z)).
    { rewrite get_page_unfold, Htotal.
      destruct Hzero as [-> | (o & Ho & Hparse)]; [reflexivity|].
      destruct (last_item_flag flag); [reflexivity|].
      rewrite Ho. cbn [py_int]. rewrite Hparse. reflexivity. }
    split; [assumption|]. split.
    + rewrite (paged_loop_step fuel elements Hpage). reflexivity.
    + pose proof (get_response_xml_posted self payload w) as H.
      now rewrite Hresponse in H.
  - intros Hmore next_offset Hnext Hnonzero.
    assert (Hpage : _get_page [message] = Raise AssertionError).
    { rewrite get_page_unfold, Hmore, Hnext, Htotal. cbn [bind].
      apply Z.eqb_neq in Hnonzero. rewrite Hnonzero. reflexivity. }
    split; [assumption|]. now apply paged_loop_raise.
Qed.

(** C7, as the code has it.  Let a fetched page lack the
    [IndexedPagingOffset] attribute and not be flagged as the last one, and
    let ['1'] parse to 1.  If its [TotalItemsInView] parses to a number other
    than 0, [_get_page] does not fail: it returns the root folder with next
    offset 1.  What the loop does next depends on the root folder: when it
    holds the container of the service and the elements of the container
    are extracted, they are added and the loop goes on with offset 1; when
    it lacks the container, the retrieval raises the [TransportError] that
    names the container; and an error raised while the container is looked
    up or its elements are extracted is raised by the retrieval. *)
Theorem missing_offset_assumes_one (fuel : nat) (elements : list Element)
  (total : Z) :
  last_item_flag flag = false ->
  get rootfolder "IndexedPagingOffset" = None ->
  parse_int "1" = Some 1%Z ->
  py_int (get rootfolder "TotalItemsInView") = Ok total ->
  total <> 0%Z ->
  _get_page [message] = Ok (Some rootfolder, 1%Z)
  /\ (forall container found,
      py_find rootfolder (element_container_name self) = Ok (Some container) ->
      _get_elements_in_container self container = Ok found ->
      paged_loop (S fuel) get_payload self offset elements w
      = paged_loop fuel get_payload self 1%Z (elements ++ found) w1)
  /\ (py_find rootfolder (element_container_name self) = Ok None ->
      paged_loop (S fuel) get_payload self offset elements w
      = Some (Raise (EWS TransportError
                       (Some ("No " ++ py_str (element_container_name self)
                              ++ " elements in ResponseMessage ("
                              ++ tostring rootfolder ++ ")")%string)), w1))
  /\ (forall e,
      py_find rootfolder (element_container_name self) = Raise e
      \/ (exists container,
            py_find rootfolder (element_container_name self)
            = Ok (Some container)
            /\ _get_elements_in_container self container = Raise e) ->
      paged_loop (S fuel) get_payload self offset elements w
      = Some (Raise e, w1)).
Proof.
  intros Hmore Hoffset Hone Htotal Hnonzero.
  assert (Hpage : _get_page [message] = Ok (Some rootfolder, 1%Z)).
  { rewrite get_page_unfold, Hmore, Hoffset. cbn [py_int].
    rewrite Hone, Htotal. cbn [bind].
    apply Z.eqb_neq in Hnonzero. rewrite Hnonzero. reflexivity. }
  split; [assumption|].
  rewrite (paged_loop_step fuel elements Hpage).
  split; [|split].
  - intros container found Hcontainer Hfound.
    rewrite Hcontainer. cbn [bind]. rewrite Hfound. reflexivity.
  - intros Hcontainer. rewrite Hcontainer. reflexivity.
  - intros e [Hcontainer | (container & Hcontainer & Hfound)];
      rewrite Hcontainer; cbn [bind]; [reflexivity|].
    rewrite Hfound. reflexivity.
Qed.

End Page.

(** *** The thread pool *)

Section Pool.
Context {I A : Type}.
Variable extract : Element -> result (list A).
Variable self : Service.
Variable payload_func : list I -> Element.

(** The outcome the server has for each item. *)
Variable g : I -> entry A.




Lemma map_nth_seq {X Y : Type} (h : X -> Y) (d : X) (l : list X) :
  map (fun i => h (nth i l d)) (seq 0 (length l)) = map h l.
Proof.
  induction l as [|x l IH]; [reflexivity|].
  cbn [length seq map nth]. rewrite <- seq_shift, map_map.
  now rewrite <- IH.
Qed.



End Pool.

End RequestProperties.

(** * The properties on the sample environment *)

Section OnSample.
Import Sample.
#[local] Existing Instance Sample.errors.
#[local] Existing Instance Sample.collaborators.

(** A fault with [ErrorAccessDenied] in its detail and a message with that
    code both raise [ErrorAccessDenied]. *)
Lemma soap_fault_same_class_witness :
  _raise_soap_errors (GetItem exchange2010 "Message") fault_access_denied
  = EWS cErrorAccessDenied (detail_msg detail_access_denied)
  /\ _raise_errors (Some "ErrorAccessDenied") (Some "Access is denied.") None
     = Raise (EWS cErrorAccessDenied (Some "Access is denied.")).
Proof.
  apply (@soap_fault_same_class errors collaborators
           (GetItem exchange2010 "Message") fault_access_denied
           detail_access_denied "ErrorAccessDenied" cErrorAccessDenied
           (Some "Access is denied.") None).
  - reflexivity.
  - discriminate.
  - discriminate.
  - reflexivity.
  - discriminate.
  - reflexivity.
Defined.

(** C1 as stated fails: one successful [GetItem] message whose container
    holds two items yields two entries, and one whose container is empty
    yields none. *)
Lemma one_message_two_entries :
  _get_elements_in_response
    (_get_elements_in_container (GetItem exchange2010 "Message"))
    (GetItem exchange2010 "Message") [two_items]
  = Ok [Item (item "a"); Item (item "b")]
  /\ _get_elements_in_response
       (_get_elements_in_container (GetItem exchange2010 "Message"))
       (GetItem exchange2010 "Message") [no_items]
     = Ok []
  /\ length [Item (item "a"); Item (item "b")] <> length [two_items].
Proof. repeat split. discriminate. Qed.

(** C3 as stated fails: a warning whose code is [ErrorAccessDenied] is
    raised, and takes the whole response with it. *)
Lemma warning_access_denied_raises :
  get warning_access_denied "ResponseClass" = Some "Warning"
  /\ errors_vars "ErrorAccessDenied" = Some cErrorAccessDenied
  /\ _get_elements_in_response
       (_get_elements_in_container (DeleteItem exchange2010))
       (DeleteItem exchange2010)
       [delete_ok; warning_access_denied; delete_ok]
     = Raise (EWS cErrorAccessDenied (Some "Access is denied.")).
Proof. repeat split. Qed.

(** A stopped batch among two deletions. *)
Lemma warning_outcomes_witness :
  response_loop (_get_elements_in_container (DeleteItem exchange2010))
    (DeleteItem exchange2010) [warning_batch_stopped; delete_ok]
    [Status true None]
  = response_loop (_get_elements_in_container (DeleteItem exchange2010))
      (DeleteItem exchange2010) [delete_ok]
      ([Status true None]
       ++ [Status false
             (Some (py_str (message_text_of warning_batch_stopped)))]).
Proof.
  refine (proj1 (proj2
    (@warning_outcomes errors collaborators Element
       (_get_elements_in_container (DeleteItem exchange2010))
       (DeleteItem exchange2010) warning_batch_stopped [delete_ok]
       [Status true None] _ _ _))
    "ErrorBatchProcessingStopped" cErrorBatchProcessingStopped _ _ _ _ _).
  - reflexivity.
  - reflexivity.
  - reflexivity.
  - reflexivity.
  - discriminate.
  - discriminate.
  - reflexivity.
  - reflexivity.
Defined.

(** C9 as stated fails: two messages with the same children, hence the same
    [ResponseCode], neither of class ['Warning'], have different outcomes. *)
Lemma class_decides_no_error_outcome :
  children error_class_no_error = children success_class_no_error
  /\ response_code_of error_class_no_error = Some "NoError"
  /\ get error_class_no_error "ResponseClass" = Some "Error"
  /\ get success_class_no_error "ResponseClass" = Some "Success"
  /\ _get_element_container error_class_no_error (Some (qname MNS "Items"))
     = Ok RTrue
  /\ _get_element_container success_class_no_error (Some (qname MNS "Items"))
     = Ok (RElement (Elem (qname MNS "Items") [] None [item "a"]))
  /\ _get_element_container error_class_no_error (Some (qname MNS "Items"))
     <> _get_element_container success_class_no_error
          (Some (qname MNS "Items")).
Proof. repeat split. discriminate. Qed.

(** A message of class ['Error'] with code ['NoError']. *)
Lemma container_by_code_and_class_witness :
  _get_element_container error_class_no_error (Some (qname MNS "Items"))
  = Ok RTrue.
Proof.
  refine (proj1 (proj2
    (@container_by_code_and_class errors collaborators
       error_class_no_error (Some (qname MNS "Items")) _)) _ _).
  - reflexivity.
  - reflexivity.
  - discriminate.
Defined.

(** [FindFolder] on a container that lists a calendar folder first. *)
Lemma elements_grouped_by_name_witness :
  _get_elements_in_container (FindFolder exchange2010) folders
  = Ok (findall folders (qname TNS "Folder")
        ++ flat_map (findall folders)
             (extra_element_names (FindFolder exchange2010))).
Proof.
  refine (proj1
    (@elements_grouped_by_name errors collaborators
       (FindFolder exchange2010) folders (qname TNS "Folder") _)).
  reflexivity.
Defined.

(** [GetServerTimeZones] against Exchange 2007, with a keyword the payload
    builder does not know. *)
Lemma time_zones_version_gate_witness :
  posted (snd (GetServerTimeZones_call (GetServerTimeZones exchange2007)
                 [("bogus", true)] (serving ["last_page.xml"] [])))
  = [].
Proof.
  refine (proj1 (proj2
    (@time_zones_version_gate errors collaborators canned
       (GetServerTimeZones exchange2007) [("bogus", true)]
       (serving ["last_page.xml"] []) _))).
  reflexivity.
Defined.

(** C2 as stated fails: an empty view that is not flagged as the last page
    and carries offset 10 makes the retrieval raise. *)
Lemma empty_view_with_offset_raises :
  py_int (get empty_view_more "TotalItemsInView") = Ok 0%Z
  /\ get empty_view_more "IncludesLastItemInRange" = Some "false"
  /\ get empty_view_more "IndexedPagingOffset" = Some "10"
  /\ _paged_call 5 find_item_payload (FindItem exchange2010 "Message")
       (serving ["empty_view_more.xml"] [])
     = Some (Raise AssertionError, serving [] [find_item_request "0"]).
Proof. repeat split. Qed.

(** An empty view flagged as the last page ends the retrieval. *)
Lemma empty_view_stops_or_asserts_witness :
  _paged_call 1 find_item_payload (FindItem exchange2010 "Message")
    (serving ["empty_view_last.xml"; "last_page.xml"] [])
  = Some (Ok [], serving ["last_page.xml"] [find_item_request "0"]).
Proof.
  refine (proj1 (proj2 (proj1
    (@empty_view_stops_or_asserts errors collaborators canned
       find_item_payload (FindItem exchange2010 "Message") 0%Z
       (find_item_request "0")
       (serving ["empty_view_last.xml"; "last_page.xml"] [])
       (serving ["last_page.xml"] [find_item_request "0"])
       (find_item_message empty_view_last) empty_view_last "true"
       _ _ _ _ 0 [] _) _))).
  - reflexivity.
  - reflexivity.
  - reflexivity.
  - reflexivity.
  - reflexivity.
  - left. reflexivity.
Defined.

(** C7 as stated fails: a page without offset that is not flagged as the
    last one makes the retrieval raise when its view is empty. *)
Lemma empty_view_without_offset_raises :
  get empty_view_no_offset "IndexedPagingOffset" = None
  /\ get empty_view_no_offset "IncludesLastItemInRange" = Some "false"
  /\ last_item_flag "false" = false
  /\ _paged_call 5 find_item_payload (FindItem exchange2010 "Message")
       (serving ["empty_view_no_offset.xml"] [])
     = Some (Raise AssertionError, serving [] [find_item_request "0"]).
Proof. repeat split. Qed.

(** A first page of two items without offset: the loop goes on with
    offset 1. *)
Lemma missing_offset_assumes_one_witness :
  _get_page [find_item_message first_page_no_offset]
  = Ok (Some first_page_no_offset, 1%Z)
  /\ paged_loop 2 find_item_payload (FindItem exchange2010 "Message") 0%Z []
       (serving ["first_page_no_offset.xml"; "last_page.xml"] [])
     = paged_loop 1 find_item_payload (FindItem exchange2010 "Message") 1%Z
         ([] ++ [item "a"; item "b"])
         (serving ["last_page.xml"] [find_item_request "0"]).
Proof.
  destruct (@missing_offset_assumes_one errors collaborators canned
       find_item_payload (FindItem exchange2010 "Message") 0%Z
       (find_item_request "0")
       (serving ["first_page_no_offset.xml"; "last_page.xml"] [])
       (serving ["last_page.xml"] [find_item_request "0"])
       (find_item_message first_page_no_offset) first_page_no_offset "false"
       eq_refl eq_refl eq_refl eq_refl 1 [] 3%Z
       eq_refl eq_refl eq_refl eq_refl (Z.neq_sym _ _ (Z.lt_neq 0 3 eq_refl)))
    as [Hpage [Hloop _]].
  split; [exact Hpage|].
  apply (Hloop (Elem (qname TNS "Items") [] None [item "a"; item "b"])
               [item "a"; item "b"]); reflexivity.
Defined.

(** A retrieval of two pages, the first of which carries no offset: two
    requests, at offsets 0 and 1, and the items of both pages in order. *)
Example paging_two_pages :
  _paged_call 5 find_item_payload (FindItem exchange2010 "Message")
    (serving ["first_page_no_offset.xml"; "last_page.xml"] [])
  = Some (Ok [item "a"; item "b"; item "c"],
          serving [] [find_item_request "0"; find_item_request "1"]).
Proof. reflexivity. Qed.

End OnSample.

(** * Further properties of the dispatcher *)

Section MoreOutcomes.
Context `{EM : ErrorsModule} `{CO : Collaborators}.

(** X1.  [_get_element_container] returns only for a message whose
    [ResponseCode] is ['NoError'].  It returns an element only for a
    ['Success'] message and a non-empty container name, and the element is
    then the first child of the message that carries that name; a
    ['Success'] message for which it returns [True] was asked for no
    container. *)
Theorem container_returned_only_for_no_error (msg : Element)
  (name : option string) (r : retval) :
  _get_element_container msg name = Ok r ->
  response_code_of msg = Some "NoError"
  /\ match r with
     | RElement container =>
         get msg "ResponseClass" = Some "Success"
         /\ py_not name = false
         /\ find msg (py_str name) = Some container
     | RTrue => get msg "ResponseClass" = Some "Success" -> py_not name = true
     end.
Proof.
  rewrite container_unfold.
  destruct (py_eq (get msg "ResponseClass") "Success") eqn:Hclass;
    destruct (py_eq (response_code_of msg) "NoError") eqn:Hcode;
    cbn [andb].
  - apply py_eq_true in Hclass, Hcode.
    destruct (py_not name) eqn:Hname.
    + intros [= <-]. auto.
    + destruct (find msg (py_str name)) as [container|]; [|discriminate].
      intros [= <-]. auto.
  - destruct (py_eq (get msg "ResponseClass") "Warning"); intros H;
      [apply raise_warnings_ok in H|apply raise_errors_ok in H];
      destruct H as [_ H]; apply py_eq_true in H; congruence.
  - apply py_eq_true in Hcode.
    assert (Hnot : get msg "ResponseClass" <> Some "Success").
    { intros H. apply py_eq_true in H. congruence. }
    destruct (py_eq (get msg "ResponseClass") "Warning"); intros H;
      [apply raise_warnings_ok in H|apply raise_errors_ok in H];
      destruct H as [-> _]; split; [assumption|contradiction| |contradiction];
      assumption.
  - destruct (py_eq (get msg "ResponseClass") "Warning"); intros H;
      [apply raise_warnings_ok in H|apply raise_errors_ok in H];
      destruct H as [_ H]; apply py_eq_true in H; congruence.
Qed.

(** What [_get_element_container] raises for a known error code. *)
Lemma container_raises_known (msg : Element) (name : option string)
  (code : string) (cls : ExcClass) :
  response_code_of msg = Some code ->
  code <> "NoError" -> code <> "" ->
  errors_vars code = Some cls ->
  _get_element_container msg name =
  if py_eq (get msg "ResponseClass") "Warning"
     && issubclass cls ErrorBatchProcessingStopped
  then Raise (EWS EWSWarning (message_text_of msg))
  else Raise (EWS cls (message_text_of msg)).
Proof.
  intros Hcode Hne Hnn Hcls. rewrite container_unfold, Hcode.
  assert (Hno : py_eq (Some code) "NoError" = false).
  { simpl. now apply String.eqb_neq. }
  rewrite Hno, andb_false_r.
  unfold _raise_warnings. rewrite (raise_errors_known _ _ Hne Hnn Hcls).
  destruct (py_eq (get msg "ResponseClass") "Warning"); cbn [andb];
    [|reflexivity].
  now destruct (issubclass cls ErrorBatchProcessingStopped).
Qed.

(** X2.  A message whose code names a timeout aborts the response whatever
    its [ResponseClass], and one whose code names a stopped batch aborts it
    unless its [ResponseClass] is ['Warning']: the error is raised out of the
    loop and the entries collected so far are dropped. *)
Theorem timeout_and_stopped_batch_abort {A : Type}
  (extract : Element -> result (list A)) (self : Service) (msg : Element)
  (rest : list Element) (elements : list (entry A)) (code : string)
  (cls : ExcClass) :
  response_code_of msg = Some code ->
  code <> "NoError" -> code <> "" ->
  errors_vars code = Some cls ->
  (issubclass cls ErrorTimeoutExpired = true ->
   issubclass cls ErrorBatchProcessingStopped = false ->
   response_loop extract self (msg :: rest) elements
   = Raise (EWS cls (message_text_of msg)))
  /\ (issubclass cls ErrorBatchProcessingStopped = true ->
      get msg "ResponseClass" <> Some "Warning" ->
      response_loop extract self (msg :: rest) elements
      = Raise (EWS cls (message_text_of msg))).
Proof.
  intros Hcode Hne Hnn Hcls.
  pose proof (container_raises_known msg (element_container_name self)
                Hcode Hne Hnn Hcls) as Hraise.
  split.
  - intros Htimeout Hstopped. rewrite Hstopped, andb_false_r in Hraise.
    cbn [response_loop]. unfold try_body. rewrite Hraise. cbn [bind].
    unfold caught_as_warning. now rewrite Htimeout.
  - intros Hstopped Hclass.
    assert (Hno : py_eq (get msg "ResponseClass") "Warning" = false).
    { destruct (py_eq (get msg "ResponseClass") "Warning") eqn:E;
        [apply py_eq_true in E; contradiction|reflexivity]. }
    rewrite Hno in Hraise. cbn [andb] in Hraise.
    cbn [response_loop]. unfold try_body. rewrite Hraise. cbn [bind].
    unfold caught_as_warning. now rewrite Hstopped, orb_true_r.
Qed.

Lemma response_loop_app {A : Type} (extract : Element -> result (list A))
  (self : Service) (pre : list Element) (parts : list (list (entry A))) :
  Forall2 (contributes extract self) pre parts ->
  forall rest elements,
    response_loop extract self (pre ++ rest) elements
    = response_loop extract self rest (elements ++ concat parts).
Proof.
  induction 1 as [|msg part pre parts Hmsg _ IH]; intros rest elements.
  - simpl. now rewrite app_nil_r.
  - cbn [app response_loop concat].
    destruct Hmsg as [container found Hc Hx | Hc | cls value Hc Hw];
      unfold try_body in *;
      [rewrite Hc; cbn [bind]; rewrite Hx | rewrite Hc | rewrite Hc, Hw];
      cbn [bind]; rewrite IH, <- app_assoc; reflexivity.
Qed.

(** X3.  The first message whose handling raises an error that is not
    recorded as a warning aborts the whole response: the call raises that
    error, whatever the messages before it contributed and whatever
    follows. *)
Theorem first_error_aborts_response {A : Type}
  (extract : Element -> result (list A)) (self : Service)
  (pre : list Element) (parts : list (list (entry A))) (msg : Element)
  (post : list Element) (e : exn) :
  Forall2 (contributes extract self) pre parts ->
  try_body extract self msg = Raise e ->
  (forall cls value, e = EWS cls value -> caught_as_warning cls = false) ->
  _get_elements_in_response extract self (pre ++ msg :: post) = Raise e.
Proof.
  intros Hpre Hbody Hhard. unfold _get_elements_in_response.
  rewrite (response_loop_app Hpre). cbn [response_loop]. rewrite Hbody.
  destruct e as [cls value| | | | |]; try reflexivity.
  now rewrite (Hhard cls value eq_refl).
Qed.

(** *** The elements of a container, counted *)

Lemma filter_none {X : Type} (l : list X) :
  filter (fun _ => false) l = [].
Proof. induction l; [reflexivity|assumption]. Qed.

Lemma filter_either {X : Type} (p q : X -> bool) (l : list X) :
  (forall x, p x = true -> q x = true -> False) ->
  Permutation (filter (fun x => p x || q x) l) (filter p l ++ filter q l).
Proof.
  intros Hdisjoint. induction l as [|x l IH]; [constructor|].
  cbn [filter]. destruct (p x) eqn:Hp; destruct (q x) eqn:Hq; cbn [orb].
  - exfalso. eauto.
  - now constructor.
  - now apply Permutation_cons_app.
  - assumption.
Qed.

Lemma findall_names (container : Element) (names : list string) :
  NoDup names ->
  Permutation
    (flat_map (findall container) names)
    (filter (fun c => existsb (String.eqb (tag c)) names)
            (children container)).
Proof.
  induction 1 as [|name names Hfresh _ IH]; cbn [flat_map existsb].
  - now rewrite filter_none.
  - rewrite filter_either.
    + now apply Permutation_app_head.
    + intros c Hname Hother. apply String.eqb_eq in Hname.
      apply existsb_exists in Hother. destruct Hother as (n & Hin & Hn).
      apply String.eqb_eq in Hn. congruence.
Qed.

(** X4.  When the primary element name and the extra names are pairwise
    different, [_get_elements_in_container] returns every child of the
    container that carries one of these names exactly once, and nothing
    else: its result is a rearrangement of those children. *)
Theorem elements_are_the_named_children (self : Service)
  (container : Element) (name : string) :
  element_name self = Some name ->
  NoDup (name :: extra_element_names self) ->
  exists elems,
    _get_elements_in_container self container = Ok elems
    /\ Permutation elems
         (filter (fun c => existsb (String.eqb (tag c))
                             (name :: extra_element_names self))
                 (children container)).
Proof.
  intros Hname Hnames.
  exists (flat_map (findall container) (name :: extra_element_names self)).
  split.
  - unfold _get_elements_in_container. rewrite Hname. cbn [py_findall bind].
    now rewrite extend_extra_flat_map.
  - now apply findall_names.
Qed.

(** *** SOAP faults and envelopes *)

(** X5.  The error a SOAP fault raises is chosen in this order.  The code
    of its detail is looked up first: a code that names an exception class
    raises that class, constructed from the detail's message, and a code
    that names another attribute of [errors] raises [TypeError].  Otherwise
    the [faultcode] is looked up in the same way: a class is raised,
    constructed from the [faultstring], and another attribute raises
    [TypeError].  Otherwise a [SOAPError] is raised; for a fault without
    detail its message spells out code, string and actor. *)
Theorem soap_fault_priority (self : Service) (fault : Element) :
  (forall detail,
     find fault "detail" = Some detail ->
     match errors_lookup (detail_code detail) with
     | Some cls => _raise_soap_errors self fault = EWS cls (detail_msg detail)
     | None =>
         errors_non_class_lookup (detail_code detail) = true ->
         _raise_soap_errors self fault = TypeError
     end)
  /\ ((forall detail, find fault "detail" = Some detail ->
                      errors_lookup (detail_code detail) = None
                      /\ errors_non_class_lookup (detail_code detail) = false)
      ->
      match errors_lookup (get_xml_attr fault "faultcode") with
      | Some cls =>
          _raise_soap_errors self fault
          = EWS cls (get_xml_attr fault "faultstring")
      | None =>
          if errors_non_class_lookup (get_xml_attr fault "faultcode")
          then _raise_soap_errors self fault = TypeError
          else exists message,
                 _raise_soap_errors self fault = EWS SOAPError (Some message)
      end)
  /\ (find fault "detail" = None ->
      errors_lookup (get_xml_attr fault "faultcode") = None ->
      errors_non_class_lookup (get_xml_attr fault "faultcode") = false ->
      _raise_soap_errors self fault
      = EWS SOAPError
          (Some ("SOAP error code: " ++ py_str (get_xml_attr fault "faultcode")
                 ++ " string: " ++ py_str (get_xml_attr fault "faultstring")
                 ++ " actor: " ++ py_str (get_xml_attr fault "faultactor")
                 ++ " detail: None")%string)).
Proof.
  unfold _raise_soap_errors. split; [|split].
  - intros detail Hdetail. rewrite Hdetail.
    destruct (errors_lookup (detail_code detail)); [reflexivity|].
    now intros ->.
  - intros Hunknown.
    destruct (find fault "detail") as [detail|].
    + destruct (Hunknown detail eq_refl) as [-> ->].
      destruct (errors_lookup (get_xml_attr fault "faultcode"));
        [reflexivity|].
      destruct (errors_non_class_lookup (get_xml_attr fault "faultcode"));
        [reflexivity|eexists; reflexivity].
    + destruct (errors_lookup (get_xml_attr fault "faultcode"));
        [reflexivity|].
      destruct (errors_non_class_lookup (get_xml_attr fault "faultcode"));
        [reflexivity|eexists; reflexivity].
  - intros Hdetail Hcode Hother. now rewrite Hdetail, Hcode, Hother.
Qed.

(** X6.  When [_get_soap_payload] returns, the envelope held a body, the
    body the response element of this service, and that element a list of
    response messages; what is returned are the children of that list that
    carry the tag of this service's response message, and only those.  A
    fault next to the response element is not looked at. *)
Theorem soap_payload_returns_own_messages (self : Service)
  (soap_response : Element) (messages : list Element) :
  _get_soap_payload self soap_response = Ok messages ->
  exists body response response_messages,
    find soap_response (qname SOAPNS "Body") = Some body
    /\ find body (qname MNS (py_str (SERVICE_NAME self) ++ "Response"))
       = Some response
    /\ find response (qname MNS "ResponseMessages") = Some response_messages
    /\ messages
       = filter (fun m => String.eqb (tag m)
                            (qname MNS (py_str (SERVICE_NAME self)
                                        ++ "ResponseMessage")))
                (children response_messages)
    /\ Forall (fun m => tag m = qname MNS (py_str (SERVICE_NAME self)
                                           ++ "ResponseMessage")
                        /\ In m (children response_messages))
              messages.
Proof.
  unfold _get_soap_payload.
  destruct (find soap_response (qname SOAPNS "Body")) as [body|] eqn:Hbody;
    [|discriminate].
  destruct (find body (qname MNS (py_str (SERVICE_NAME self) ++ "Response")))
    as [response|] eqn:Hresponse.
  - destruct (find response (qname MNS "ResponseMessages"))
      as [response_messages|] eqn:Hmessages; [|discriminate].
    intros [= <-]. exists body, response, response_messages.
    do 4 (split; [reflexivity || assumption|]).
    apply Forall_forall. intros m Hm. apply filter_In in Hm.
    destruct Hm as [Hin Htag]. apply String.eqb_eq in Htag. now split.
  - destruct (find body (qname SOAPNS "Fault")); discriminate.
Qed.

End MoreOutcomes.

(** * Further properties of requests and paging *)

Section MoreRequests.
Context `{EM : ErrorsModule} `{CO : Collaborators} `{TR : @Transport EM}.

(** X7.  A response whose body holds a fault, and no response element of the
    service, comes out of [_get_elements] as the error the fault's detail
    names; the request has been posted once. *)
Theorem fault_response_raises_typed_error {A : Type}
  (extract : Element -> result (list A)) (self : Service)
  (payload : Element) (w : World) (r_text : string) (remote' : Remote)
  (tree body fault detail : Element) (cls : ExcClass) :
  post_ratelimited payload (remote w) = (Ok r_text, remote') ->
  to_xml r_text = inl tree ->
  find tree (qname SOAPNS "Body") = Some body ->
  find body (qname MNS (py_str (SERVICE_NAME self) ++ "Response")) = None ->
  find body (qname SOAPNS "Fault") = Some fault ->
  find fault "detail" = Some detail ->
  errors_lookup (detail_code detail) = Some cls ->
  _get_elements extract self payload w
  = (Raise (EWS cls (detail_msg detail)),
     {| remote := remote'; posted := posted w ++ [payload] |}).
Proof.
  intros Hpost Hxml Hbody Hresponse Hfault Hdetail Hcls.
  unfold _get_elements, mbind, _get_response_xml.
  rewrite Hpost, Hxml. unfold _get_soap_payload.
  rewrite Hbody, Hresponse, Hfault.
  unfold _raise_soap_errors. now rewrite Hdetail, Hcls.
Qed.

(** X8.  What [_get_elements] raises when no response message can be read,
    the request having been posted: the transport's own exception; a
    [SOAPError] with the parser's message for a text that is not XML; a
    [TransportError] for an envelope without body; a [SOAPError] for a body
    with neither the response element nor a fault; a [TransportError] for a
    response element without message list. *)
Theorem unreadable_response_raises {A : Type}
  (extract : Element -> result (list A)) (self : Service)
  (payload : Element) (w : World) :
  let after remote' :=
    {| remote := remote'; posted := posted w ++ [payload] |} in
  (forall e remote',
     post_ratelimited payload (remote w) = (Raise e, remote') ->
     _get_elements extract self payload w = (Raise e, after remote'))
  /\ (forall r_text remote' err,
      post_ratelimited payload (remote w) = (Ok r_text, remote') ->
      to_xml r_text = inr err ->
      _get_elements extract self payload w
      = (Raise (EWS SOAPError
                  (Some ("SOAP response is not XML: " ++ err)%string)),
         after remote'))
  /\ (forall r_text remote' tree,
      post_ratelimited payload (remote w) = (Ok r_text, remote') ->
      to_xml r_text = inl tree ->
      (find tree (qname SOAPNS "Body") = None ->
       _get_elements extract self payload w
       = (Raise (EWS TransportError
                   (Some "No Body element in SOAP response")),
          after remote'))
      /\ (forall body,
          find tree (qname SOAPNS "Body") = Some body ->
          find body (qname MNS (py_str (SERVICE_NAME self) ++ "Response"))
          = None ->
          find body (qname SOAPNS "Fault") = None ->
          _get_elements extract self payload w
          = (Raise (EWS SOAPError
                      (Some ("Unknown SOAP response: "
                             ++ tostring body)%string)),
             after remote'))
      /\ (forall body response,
          find tree (qname SOAPNS "Body") = Some body ->
          find body (qname MNS (py_str (SERVICE_NAME self) ++ "Response"))
          = Some response ->
          find response (qname MNS "ResponseMessages") = None ->
          _get_elements extract self payload w
          = (Raise (EWS TransportError
                      (Some (log_prefix self
                             ++ ": No ResponseMessages element in response")
                             %string)),
             after remote'))).
Proof.
  intros after. unfold _get_elements, mbind, _get_response_xml.
  split; [|split].
  - intros e remote' Hpost. now rewrite Hpost.
  - intros r_text remote' err Hpost Hxml. now rewrite Hpost, Hxml.
  - intros r_text remote' tree Hpost Hxml. rewrite Hpost, Hxml.
    unfold _get_soap_payload. split; [|split].
    + intros Hbody. now rewrite Hbody.
    + intros body Hbody Hresponse Hfault.
      now rewrite Hbody, Hresponse, Hfault.
    + intros body response Hbody Hresponse Hmessages.
      now rewrite Hbody, Hresponse, Hmessages.
Qed.

(** *** Pages *)

(** X9.  When [_get_page] returns, the response was a single message that
    resolved to its root folder, the folder carries the last-item flag and a
    [TotalItemsInView] that parses, and: a page flagged as the last one has
    next offset 0; an empty view is returned as no page and with next offset
    0; any other view is returned as the root folder itself. *)
Theorem page_invariant (response : list Element) (page : option Element)
  (next_offset : Z) :
  _get_page response = Ok (page, next_offset) ->
  exists message rootfolder flag total,
    response = [message]
    /\ _get_element_container message (Some (qname MNS "RootFolder"))
       = Ok (RElement rootfolder)
    /\ get rootfolder "IncludesLastItemInRange" = Some flag
    /\ py_int (get rootfolder "TotalItemsInView") = Ok total
    /\ (last_item_flag flag = true -> next_offset = 0%Z)
    /\ (total = 0%Z -> page = None /\ next_offset = 0%Z)
    /\ (total <> 0%Z -> page = Some rootfolder).
Proof.
  destruct response as [|message [|]]; try discriminate.
  intros Hpage.
  destruct (_get_element_container message (Some (qname MNS "RootFolder")))
    as [[|rootfolder]|e] eqn:Hroot;
    try (unfold _get_page in Hpage; rewrite Hroot in Hpage; discriminate).
  destruct (get rootfolder "IncludesLastItemInRange") as [flag|] eqn:Hflag;
    [|unfold _get_page in Hpage; rewrite Hroot in Hpage; cbn [bind] in Hpage;
      rewrite Hflag in Hpage; discriminate].
  revert Hpage. rewrite (get_page_unfold message Hroot Hflag).
  destruct (last_item_flag flag) eqn:Hlast; cbn [bind].
  - destruct (py_int (get rootfolder "TotalItemsInView")) as [total|e]
      eqn:Htotal; cbn [bind]; [|discriminate].
    destruct (Z.eqb_spec total 0) as [->|Hne]; cbn; intros [= <- <-];
      exists message, rootfolder, flag; eexists;
      (do 3 (split; [reflexivity || eassumption|]));
      (split; [eassumption|]); repeat split; auto; contradiction.
  - destruct (py_int match get rootfolder "IndexedPagingOffset" with
                     | Some o => Some o
                     | None => Some "1"
                     end) as [next|e]; cbn [bind]; [|discriminate].
    destruct (py_int (get rootfolder "TotalItemsInView")) as [total|e]
      eqn:Htotal; cbn [bind]; [|discriminate].
    destruct (Z.eqb_spec total 0) as [->|Hne].
    + destruct (Z.eqb_spec next 0) as [->|Hnext]; cbn iota;
        [|discriminate].
      intros [= <- <-]. exists message, rootfolder, flag, 0%Z.
      repeat split; auto. intros H. now destruct H.
    + intros [= <- <-]. exists message, rootfolder, flag, total.
      repeat split; auto; intros; congruence.
Qed.

(** X10.  Responses [_get_page] rejects: one that does not hold exactly one
    message fails the assertion; a message with code ['NoError'] whose class
    is not ['Success'] resolves to [True] instead of a root folder, and a root
    folder without the last-item flag has nothing to lower-case: both end in
    [AttributeError]. *)
Theorem pages_rejected (response : list Element) :
  (length response <> 1 -> _get_page response = Raise AssertionError)
  /\ (forall message,
      response = [message] ->
      response_code_of message = Some "NoError" ->
      get message "ResponseClass" <> Some "Success" ->
      _get_page response = Raise AttributeError)
  /\ (forall message rootfolder,
      response = [message] ->
      _get_element_container message (Some (qname MNS "RootFolder"))
      = Ok (RElement rootfolder) ->
      get rootfolder "IncludesLastItemInRange" = None ->
      _get_page response = Raise AttributeError).
Proof.
  split; [|split].
  - destruct response as [|message [|]]; simpl; intros H;
      [reflexivity|contradiction|reflexivity].
  - intros message -> Hcode Hclass. unfold _get_page.
    rewrite container_unfold, Hcode.
    destruct (py_eq (get message "ResponseClass") "Success") eqn:E;
      [apply py_eq_true in E; contradiction|].
    cbn [andb].
    now destruct (py_eq (get message "ResponseClass") "Warning").
  - intros message rootfolder -> Hroot Hflag. unfold _get_page.
    rewrite Hroot. cbn [bind]. now rewrite Hflag.
Qed.

(** *** The loop *)

Section Loop.
Variable get_payload : Z -> result Element.
Variable self : Service.

(** One turn of the loop, in terms of [page_elements]. *)
Lemma paged_loop_unfold (fuel : nat) (offset : Z) (elements : list Element)
  (w : World) :
  paged_loop (S fuel) get_payload self offset elements w =
  match get_payload offset with
  | Raise e => Some (Raise e, w)
  | Ok payload =>
      match _get_response_xml self payload w with
      | (Raise e, w1) => Some (Raise e, w1)
      | (Ok response, w1) =>
          match _get_page response with
          | Raise e => Some (Raise e, w1)
          | Ok (page, next_offset) =>
              match page_elements self page with
              | Raise e => Some (Raise e, w1)
              | Ok added =>
                  if (next_offset =? 0)%Z
                  then Some (Ok (elements ++ added), w1)
                  else paged_loop fuel get_payload self next_offset
                         (elements ++ added) w1
              end
          end
      end
  end.
Proof.
  cbn [paged_loop].
  destruct (get_payload offset) as [payload|e]; [|reflexivity].
  destruct (_get_response_xml self payload w) as [[response|e] w1];
    [|reflexivity].
  destruct (_get_page response) as [[page next_offset]|e]; [|reflexivity].
  destruct page as [page|]; cbn [page_elements].
  - destruct (py_find page (element_container_name self))
      as [[container|]|e]; cbn [bind]; try reflexivity.
    now destruct (_get_elements_in_container self container).
  - now rewrite app_nil_r.
Qed.

Lemma paged_loop_turn (fuel : nat) (offset : Z) (elements : list Element)
  (w w1 : World) (payload : Element) (page : option Element)
  (next_offset : Z) :
  fetches get_payload self offset w payload page next_offset w1 ->
  paged_loop (S fuel) get_payload self offset elements w =
  match page_elements self page with
  | Raise e => Some (Raise e, w1)
  | Ok added =>
      if (next_offset =? 0)%Z then Some (Ok (elements ++ added), w1)
      else paged_loop fuel get_payload self next_offset (elements ++ added) w1
  end.
Proof.
  destruct 1 as [payload message page next_offset w1
                 Hpayload Hresponse Hpage].
  now rewrite paged_loop_unfold, Hpayload, Hresponse, Hpage.
Qed.

Lemma fetches_posted (offset : Z) (w w1 : World) (payload : Element)
  (page : option Element) (next_offset : Z) :
  fetches get_payload self offset w payload page next_offset w1 ->
  posted w1 = posted w ++ [payload].
Proof.
  destruct 1 as [payload message page next_offset w1 _ Hresponse _].
  pose proof (get_response_xml_posted self payload w) as H.
  now rewrite Hresponse in H.
Qed.

Lemma retrieves_complete (offset : Z) (w w' : World)
  (payloads collected : list Element) :
  retrieves get_payload self offset w payloads collected w' ->
  posted w' = posted w ++ payloads
  /\ forall fuel elements,
       length payloads <= fuel ->
       paged_loop fuel get_payload self offset elements w
       = Some (Ok (elements ++ collected), w').
Proof.
  induction 1 as [offset w payload page w1 added Hfetch Hadded
                 |offset w payload page next_offset w1 added payloads
                  collected w2 Hfetch Hnext Hadded _ [IHposted IH]].
  - split; [now apply fetches_posted in Hfetch|].
    intros [|fuel] elements Hfuel; [simpl in Hfuel; lia|].
    now rewrite (paged_loop_turn fuel elements Hfetch), Hadded.
  - split.
    + apply fetches_posted in Hfetch.
      now rewrite IHposted, Hfetch, <- app_assoc.
    + intros [|fuel] elements Hfuel; [simpl in Hfuel; lia|].
      rewrite (paged_loop_turn fuel elements Hfetch), Hadded.
      apply Z.eqb_neq in Hnext. rewrite Hnext.
      rewrite IH, app_assoc; [reflexivity|simpl in Hfuel; lia].
Qed.

Lemma get_page_single (response : list Element) (page : option Element)
  (next_offset : Z) :
  _get_page response = Ok (page, next_offset) ->
  exists message, response = [message].
Proof.
  destruct response as [|message [|]]; try discriminate.
  intros _. now exists message.
Qed.

Lemma retrieves_sound (fuel : nat) :
  forall offset elements w result_list w',
    paged_loop fuel get_payload self offset elements w
    = Some (Ok result_list, w') ->
    exists payloads collected,
      retrieves get_payload self offset w payloads collected w'
      /\ result_list = elements ++ collected
      /\ length payloads <= fuel.
Proof.
  induction fuel as [|fuel IH]; intros offset elements w result_list w';
    [discriminate|].
  rewrite paged_loop_unfold.
  destruct (get_payload offset) as [payload|e] eqn:Hpayload; [|discriminate].
  destruct (_get_response_xml self payload w) as [[response|e] w1]
    eqn:Hresponse; [|discriminate].
  destruct (_get_page response) as [[page next_offset]|e] eqn:Hpage;
    [|discriminate].
  destruct (get_page_single _ Hpage) as [message ->].
  assert (Hfetch : fetches get_payload self offset w payload page
                     next_offset w1) by (econstructor; eassumption).
  destruct (page_elements self page) as [added|e] eqn:Hadded; [|discriminate].
  destruct (Z.eqb_spec next_offset 0) as [->|Hnext].
  - intros [= <- <-]. exists [payload], added.
    split; [now apply retrieves_last with page|]. split; [reflexivity|].
    simpl. lia.
  - intros H. apply IH in H.
    destruct H as (payloads & collected & Hrest & -> & Hlen).
    exists (payload :: payloads), (added ++ collected).
    split; [now apply retrieves_more with page next_offset w1|].
    split; [now rewrite app_assoc|]. simpl. lia.
Qed.

(** X11.  A retrieval returns exactly when the pages it fetches lead to one
    whose next offset is 0: it then returns the elements of all pages, in
    the order the pages were fetched, after what it started with; it has
    posted one request per page, in that order; and any larger bound on the
    number of turns gives the same result. *)
Theorem retrieval_collects_pages_in_order (offset : Z) (w w' : World)
  (elements : list Element) :
  (forall payloads collected,
     retrieves get_payload self offset w payloads collected w' ->
     posted w' = posted w ++ payloads
     /\ forall fuel,
          length payloads <= fuel ->
          paged_loop fuel get_payload self offset elements w
          = Some (Ok (elements ++ collected), w'))
  /\ (forall fuel result_list,
      paged_loop fuel get_payload self offset elements w
      = Some (Ok result_list, w') ->
      exists payloads collected,
        retrieves get_payload self offset w payloads collected w'
        /\ result_list = elements ++ collected
        /\ length payloads <= fuel).
Proof.
  split.
  - intros payloads collected H.
    destruct (retrieves_complete H) as [Hposted Hloop].
    split; [assumption|]. intros fuel Hfuel. now apply Hloop.
  - intros fuel result_list H. now apply retrieves_sound.
Qed.

(** X12.  The loop has no bound of its own: against a remote end that
    answers every request with a page that has a next offset other than 0,
    the retrieval is still running after any number of turns. *)
Theorem retrieval_runs_while_pages_follow :
  (forall offset w,
     exists payload page next_offset w1 added,
       fetches get_payload self offset w payload page next_offset w1
       /\ next_offset <> 0%Z
       /\ page_elements self page = Ok added) ->
  forall fuel offset elements w,
    paged_loop fuel get_payload self offset elements w = None.
Proof.
  intros Hmore. induction fuel as [|fuel IH]; intros offset elements w;
    [reflexivity|].
  destruct (Hmore offset w)
    as (payload & page & next_offset & w1 & added & Hfetch & Hnext & Hadded).
  rewrite (paged_loop_turn fuel elements Hfetch), Hadded.
  apply Z.eqb_neq in Hnext. rewrite Hnext. apply IH.
Qed.

(** Whatever its outcome, a retrieval has posted payloads of
    [get_payload] only. *)
Lemma paged_loop_posts (fuel : nat) :
  forall offset elements w outcome w',
    paged_loop fuel get_payload self offset elements w = Some (outcome, w') ->
    exists offsets payloads,
      posted w' = posted w ++ payloads
      /\ Forall2 (fun o payload => get_payload o = Ok payload)
                 offsets payloads
      /\ (offsets = [] \/ hd_error offsets = Some offset).
Proof.
  induction fuel as [|fuel IH]; intros offset elements w outcome w';
    [discriminate|].
  rewrite paged_loop_unfold.
  destruct (get_payload offset) as [payload|e] eqn:Hpayload.
  2:{ intros [= <- <-]. exists [], []. rewrite app_nil_r. auto. }
  pose proof (get_response_xml_posted self payload w) as Hposted.
  assert (Hone : forall r w1, _get_response_xml self payload w = (r, w1) ->
            exists offsets payloads,
              posted w1 = posted w ++ payloads
              /\ Forall2 (fun o payload => get_payload o = Ok payload)
                         offsets payloads
              /\ (offsets = [] \/ hd_error offsets = Some offset)).
  { intros r w1 H. rewrite H in Hposted. exists [offset], [payload].
    split; [assumption|]. split; [now repeat constructor|now right]. }
  destruct (_get_response_xml self payload w) as [[response|e] w1]
    eqn:Hresponse.
  2:{ intros [= <- <-]. now apply (Hone (Raise e)). }
  destruct (_get_page response) as [[page next_offset]|e].
  2:{ intros [= <- <-]. now apply (Hone (Ok response)). }
  destruct (page_elements self page) as [added|e].
  2:{ intros [= <- <-]. now apply (Hone (Ok response)). }
  destruct (next_offset =? 0)%Z.
  - intros [= <- <-]. now apply (Hone (Ok response)).
  - intros H. apply IH in H.
    destruct H as (offsets & payloads & Hrest & Hall & _).
    exists (offset :: offsets), (payload :: payloads).
    cbn [snd] in Hposted. split.
    + now rewrite Hrest, Hposted, <- app_assoc.
    + split; [now constructor|now right].
Qed.

(** X13.  Whatever the outcome of a retrieval (elements or an error), what
    it posted are payloads built by [_get_payload], one after the other, the
    first of them for offset 0. *)
Theorem retrieval_posts_payloads_only (fuel : nat) (w w' : World)
  (outcome : result (list Element)) :
  _paged_call fuel get_payload self w = Some (outcome, w') ->
  exists offsets payloads,
    posted w' = posted w ++ payloads
    /\ Forall2 (fun o payload => get_payload o = Ok payload) offsets payloads
    /\ (offsets = [] \/ hd_error offsets = Some 0%Z).
Proof. apply paged_loop_posts. Qed.

(** *** A page with items *)

Section PageWithItems.
Variables (offset : Z) (payload : Element) (w w1 : World).
Variables (message rootfolder : Element) (flag : string) (total : Z).
Variable added : list Element.
Hypothesis Hpayload : get_payload offset = Ok payload.
Hypothesis Hresponse : _get_response_xml self payload w = (Ok [message], w1).
Hypothesis Hroot :
  _get_element_container message (Some (qname MNS "RootFolder"))
  = Ok (RElement rootfolder).
Hypothesis Hflag : get rootfolder "IncludesLastItemInRange" = Some flag.
Hypothesis Htotal : py_int (get rootfolder "TotalItemsInView") = Ok total.
Hypothesis Hitems : total <> 0%Z.

Lemma page_with_items (next_offset : Z) :
  (if last_item_flag flag then Ok 0%Z
   else py_int (match get rootfolder "IndexedPagingOffset" with
                | None => Some "1"
                | Some o => Some o
                end)) = Ok next_offset ->
  fetches get_payload self offset w payload (Some rootfolder) next_offset w1.
Proof.
  intros Hnext. apply fetches_page with message; try assumption.
  rewrite (get_page_unfold message Hroot Hflag), Hnext. cbn [bind].
  rewrite Htotal. cbn [bind]. apply Z.eqb_neq in Hitems. now rewrite Hitems.
Qed.

(** X14.  A page with items, that is, one whose root folder holds the
    container of the service and whose elements are extracted from it
    without error, ends the retrieval, its elements being the last ones
    collected, in two cases: it is flagged as the last page, whatever
    its [IndexedPagingOffset] holds, even nothing or something that is no
    number; or it is not flagged as the last page but its
    [IndexedPagingOffset] parses to 0, in which case the retrieval ends
    without an error although more items were announced. *)
Theorem retrieval_ends_at_offset_zero (fuel : nat) (elements : list Element) :
  page_elements self (Some rootfolder) = Ok added ->
  (last_item_flag flag = true
   \/ exists o, get rootfolder "IndexedPagingOffset" = Some o
                /\ parse_int o = Some 0%Z) ->
  paged_loop (S fuel) get_payload self offset elements w
  = Some (Ok (elements ++ added), w1).
Proof.
  intros Hadded Hzero.
  assert (Hfetch : fetches get_payload self offset w payload
                     (Some rootfolder) 0%Z w1).
  { apply page_with_items.
    destruct Hzero as [-> | (o & Ho & Hparse)]; [reflexivity|].
    destruct (last_item_flag flag); [reflexivity|].
    rewrite Ho. cbn [py_int]. now rewrite Hparse. }
  now rewrite (paged_loop_turn fuel elements Hfetch), Hadded.
Qed.

(** X15.  A page with items (its root folder holds the container of the
    service, and the elements are extracted from it without error) that is
    not flagged as the last one and whose [IndexedPagingOffset] parses to a
    number other than 0 makes the loop
    fetch again at that offset, the elements of the page having been added
    to the ones collected. *)
Theorem retrieval_continues_at_indexed_offset (fuel : nat)
  (elements : list Element) (o : string) (next_offset : Z) :
  page_elements self (Some rootfolder) = Ok added ->
  last_item_flag flag = false ->
  get rootfolder "IndexedPagingOffset" = Some o ->
  parse_int o = Some next_offset ->
  next_offset <> 0%Z ->
  paged_loop (S fuel) get_payload self offset elements w
  = paged_loop fuel get_payload self next_offset (elements ++ added) w1.
Proof.
  intros Hadded Hmore Ho Hparse Hnext.
  assert (Hfetch : fetches get_payload self offset w payload
                     (Some rootfolder) next_offset w1).
  { apply page_with_items. rewrite Hmore, Ho. cbn [py_int].
    now rewrite Hparse. }
  rewrite (paged_loop_turn fuel elements Hfetch), Hadded.
  apply Z.eqb_neq in Hnext. now rewrite Hnext.
Qed.

(** X16.  A page with items aborts the retrieval, the request having been
    posted and the elements collected so far being dropped, when it is not
    flagged as the last page and its [IndexedPagingOffset] is no number
    ([ValueError]), and when it lacks the container of the service (a
    [TransportError] that names the container). *)
Theorem page_faults_abort_retrieval (fuel : nat) (elements : list Element) :
  (forall o,
     last_item_flag flag = false ->
     get rootfolder "IndexedPagingOffset" = Some o ->
     parse_int o = None ->
     paged_loop (S fuel) get_payload self offset elements w
     = Some (Raise ValueError, w1))
  /\ (forall name next_offset,
      element_container_name self = Some name ->
      find rootfolder name = None ->
      (if last_item_flag flag then Ok 0%Z
       else py_int (match get rootfolder "IndexedPagingOffset" with
                    | None => Some "1"
                    | Some o => Some o
                    end)) = Ok next_offset ->
      paged_loop (S fuel) get_payload self offset elements w
      = Some (Raise (EWS TransportError
                       (Some ("No " ++ name
                              ++ " elements in ResponseMessage ("
                              ++ tostring rootfolder ++ ")")%string)), w1)).
Proof.
  split.
  - intros o Hmore Ho Hparse.
    rewrite paged_loop_unfold, Hpayload, Hresponse.
    rewrite (get_page_unfold message Hroot Hflag), Hmore, Ho.
    cbn [py_int]. now rewrite Hparse.
  - intros name next_offset Hname Hfind Hnext.
    rewrite (paged_loop_turn fuel elements (page_with_items Hnext)).
    cbn [page_elements]. rewrite Hname. cbn [py_find bind py_str].
    now rewrite Hfind.
Qed.

End PageWithItems.

End Loop.

End MoreRequests.

(** * Properties of the operations *)

Section Operations_.
Context `{EM : ErrorsModule} `{CO : Collaborators} `{TR : @Transport EM}
        `{XS : XmlSetter}.

Lemma get_appended (parent child : Element) (key : string) :
  get (append parent child) key = get parent key.
Proof. now destruct parent. Qed.

Lemma find_item_traversal (self : Service) (folder : Folder)
  (additional_fields : option (list string)) (restriction : option Element)
  (shape depth : string) (offset : Z) :
  get (FindItem_get_payload self folder additional_fields restriction shape
         depth offset) "Traversal" = Some "Shallow".
Proof.
  unfold FindItem_get_payload.
  destruct restriction; now rewrite !get_appended.
Qed.

(** X17.  [FindItem] does not use the [depth] it is given: the call is the
    same for every depth, and every request it posts, whatever the outcome,
    is a payload of [FindItem._get_payload] whose [Traversal] is
    ['Shallow'], the first of them for offset 0. *)
Theorem find_item_requests_are_shallow (fuel : nat) (self : Service)
  (folder : Folder) (additional_fields : option (list string))
  (restriction : option Element) (shape depth : string) (w w' : World)
  (outcome : result (list Element)) :
  FindItem_call fuel self folder additional_fields restriction shape depth w
  = Some (outcome, w') ->
  (forall depth',
     FindItem_call fuel self folder additional_fields restriction shape
                   depth' w = Some (outcome, w'))
  /\ exists offsets,
       posted w' = posted w
                   ++ map (FindItem_get_payload self folder additional_fields
                             restriction shape depth) offsets
       /\ (offsets = [] \/ hd_error offsets = Some 0%Z)
       /\ Forall (fun request => get request "Traversal" = Some "Shallow")
                 (map (FindItem_get_payload self folder additional_fields
                         restriction shape depth) offsets).
Proof.
  intros Hcall. split; [intros depth'; exact Hcall|].
  unfold FindItem_call, _paged_call in Hcall.
  apply paged_loop_posts in Hcall.
  destruct Hcall as (offsets & payloads & Hposted & Hall & Hfirst).
  exists offsets.
  assert (Hpayloads : payloads
            = map (FindItem_get_payload self folder additional_fields
                     restriction shape depth) offsets).
  { clear Hposted Hfirst.
    induction Hall as [|o payload offsets payloads Ho _ IH]; [reflexivity|].
    injection Ho as <-. cbn [map]. now rewrite IH. }
  subst payloads. split; [assumption|]. split; [assumption|].
  apply Forall_forall. intros request Hin. apply in_map_iff in Hin.
  destruct Hin as (o & <- & _). apply find_item_traversal.
Qed.

Lemma children_appended (parent child : Element) :
  children (append parent child) = children parent ++ [child].
Proof. now destruct parent. Qed.

(** X18.  Against a server older than Exchange 2010, [FindFolder] builds a
    request without paging view for offset 0 and fails the assertion for any
    other offset.  A listing whose first page, its folders extracted without
    error, announces a next offset other than 0 therefore ends in
    [AssertionError] after that one request, and the folders of the first
    page are lost. *)
Theorem find_folder_cannot_page_before_2010 (self : Service)
  (folder : Folder) (additional_fields : option (list string))
  (shape depth : string) :
  (major_version (folder_protocol folder) < 14)%Z ->
  (forall offset, offset <> 0%Z ->
     FindFolder_get_payload self folder additional_fields shape depth offset
     = Raise AssertionError)
  /\ (exists request,
      FindFolder_get_payload self folder additional_fields shape depth 0%Z
      = Ok request
      /\ children request
         = [shape_element "m:FolderShape" shape additional_fields;
            Elem "m:ParentFolderIds" [] None [folderid_xml folder]])
  /\ (forall fuel w request page next_offset w1 added,
      fetches (FindFolder_get_payload self folder additional_fields shape
                 depth) self 0%Z w request page next_offset w1 ->
      next_offset <> 0%Z ->
      page_elements self page = Ok added ->
      FindFolder_call (S (S fuel)) self folder additional_fields shape depth w
      = Some (Raise AssertionError, w1)).
Proof.
  intros Hversion.
  assert (Hold : (14 <=? major_version (folder_protocol folder))%Z = false)
    by now apply Z.leb_gt.
  assert (Hfail : forall offset, offset <> 0%Z ->
            FindFolder_get_payload self folder additional_fields shape depth
              offset = Raise AssertionError).
  { intros offset Hoffset. unfold FindFolder_get_payload. rewrite Hold.
    apply Z.eqb_neq in Hoffset. now rewrite Hoffset. }
  split; [assumption|]. split.
  - eexists. unfold FindFolder_get_payload. rewrite Hold.
    cbn [Z.eqb bind]. split; [reflexivity|].
    now rewrite !children_appended.
  - intros fuel w request page next_offset w1 added Hfetch Hnext Hadded.
    unfold FindFolder_call, _paged_call.
    rewrite (paged_loop_turn (S fuel) [] Hfetch), Hadded.
    pose proof Hnext as Hnext'. apply Z.eqb_neq in Hnext'. rewrite Hnext'.
    rewrite paged_loop_unfold. now rewrite (Hfail next_offset Hnext).
Qed.

(** X19.  [ResolveNames] needs at least one entry: called with none, the
    assertion of [_get_payload] fails and nothing is posted; called with
    some, exactly one request is posted, whatever comes back. *)
Theorem resolve_names_requires_entries (self : Service)
  (returnfullcontactdata : bool) (w : World) :
  ResolveNames_call self [] returnfullcontactdata w
  = (Raise AssertionError, w)
  /\ (forall entry entries,
      exists request,
        ResolveNames_get_payload self (entry :: entries)
          returnfullcontactdata = Ok request
        /\ posted (snd (ResolveNames_call self (entry :: entries)
                          returnfullcontactdata w))
           = posted w ++ [request]).
Proof.
  split; [reflexivity|].
  intros entry entries. eexists. split; [reflexivity|].
  unfold ResolveNames_call, mbind, lift.
  cbn [ResolveNames_get_payload].
  apply get_elements_posted.
Qed.

(** X20.  Against Exchange 2010 or later, [GetServerTimeZones.call] posts
    exactly one request, [m:GetServerTimeZones] with the attribute
    [ReturnFullTimeZoneData] set to ['true'] or ['false'] as the caller asks
    (['false'] when the keyword is not given); with a keyword the payload
    builder does not know it raises [TypeError] and posts nothing. *)
Theorem time_zones_call_posts_once (self : Service) (w : World) :
  (14 <= major_version (protocol self))%Z ->
  (forall kwargs,
     forallb (fun kv => String.eqb (fst kv) "returnfulltimezonedata") kwargs
     = false ->
     GetServerTimeZones_call self kwargs w = (Raise TypeError, w))
  /\ posted (snd (GetServerTimeZones_call self [] w))
     = posted w
       ++ [Elem ("m:" ++ py_str (SERVICE_NAME self))
                [("ReturnFullTimeZoneData", "false")] None []]
  /\ (forall flag : bool,
      posted (snd (GetServerTimeZones_call self
                     [("returnfulltimezonedata", flag)] w))
      = posted w
        ++ [Elem ("m:" ++ py_str (SERVICE_NAME self))
                 [("ReturnFullTimeZoneData",
                   if flag then "true" else "false")] None []]).
Proof.
  intros Hversion.
  assert (Hnew : (major_version (protocol self) <? 14)%Z = false)
    by now apply Z.ltb_ge.
  unfold GetServerTimeZones_call. rewrite Hnew. split; [|split].
  - intros kwargs Hunknown. unfold mbind, lift, GetServerTimeZones_get_payload.
    now rewrite Hunknown.
  - unfold mbind, lift. cbn [GetServerTimeZones_get_payload forallb].
    apply get_elements_posted.
  - intros flag. unfold mbind, lift.
    cbn [GetServerTimeZones_get_payload forallb fst String.eqb Ascii.eqb
         Bool.eqb andb].
    apply get_elements_posted.
Qed.

(** *** The order of the request elements *)

Lemma additional_properties_children (fields : list string) :
  forall start,
    children
      (fold_left
         (fun additionalproperties field_uri =>
            append additionalproperties
                   (Elem "t:FieldURI" [("FieldURI", field_uri)] None []))
         fields start)
    = children start
      ++ map (fun field_uri =>
                Elem "t:FieldURI" [("FieldURI", field_uri)] None [])
             fields.
Proof.
  induction fields as [|field_uri fields IH]; intros start; cbn [fold_left map].
  - now rewrite app_nil_r.
  - now rewrite IH, children_appended, <- app_assoc.
Qed.

(** X25.  The requests list their parts in a fixed order: [FindItem] the
    item shape, the paging view with the offset, the restriction if there is
    one, and the parent folder ids; [FindFolder], from Exchange 2010 on, the
    folder shape, the paging view with the offset and the parent folder
    ids; [GetFolder] the folder shape and the folder ids.  The additional
    fields are listed in the order the caller gave them. *)
Theorem request_parts_in_order (self : Service) (folder : Folder)
  (additional_fields : option (list string)) (shape depth : string)
  (offset : Z) :
  (forall restriction,
     children (FindItem_get_payload self folder additional_fields restriction
                 shape depth offset)
     = [shape_element "m:ItemShape" shape additional_fields;
        Elem "m:IndexedPageItemView"
             [("Offset", py_str_int offset); ("BasePoint", "Beginning")]
             None []]
       ++ match restriction with
          | Some restriction_xml => [restriction_xml]
          | None => []
          end
       ++ [Elem "m:ParentFolderIds" [] None [folderid_xml folder]])
  /\ ((14 <= major_version (folder_protocol folder))%Z ->
      exists request,
        FindFolder_get_payload self folder additional_fields shape depth
          offset = Ok request
        /\ get request "Traversal" = Some depth
        /\ children request
           = [shape_element "m:FolderShape" shape additional_fields;
              Elem "m:IndexedPageFolderView"
                   [("Offset", py_str_int offset); ("BasePoint", "Beginning")]
                   None [];
              Elem "m:ParentFolderIds" [] None [folderid_xml folder]])
  /\ children (GetFolder_get_payload self folder additional_fields shape)
     = [shape_element "m:FolderShape" shape additional_fields;
        Elem "m:FolderIds" [] None [folderid_xml folder]]
  /\ (forall fields,
      children (additional_properties fields)
      = map (fun field_uri =>
               Elem "t:FieldURI" [("FieldURI", field_uri)] None [])
            fields).
Proof.
  split; [|split; [|split]].
  - intros restriction. unfold FindItem_get_payload.
    destruct restriction; now rewrite !children_appended.
  - intros Hversion. apply Z.leb_le in Hversion.
    unfold FindFolder_get_payload. rewrite Hversion. cbn [bind].
    eexists. split; [reflexivity|]. split.
    + now rewrite !get_appended.
    + now rewrite !children_appended.
  - unfold GetFolder_get_payload. now rewrite !children_appended.
  - intros fields. unfold additional_properties.
    now rewrite additional_properties_children.
Qed.

(** *** The pooled operations *)

Section MorePool.
Context {I A : Type}.
Variable extract : Element -> result (list A).
Variable self : Service.
Variable payload_func : list I -> Element.


Lemma run_tasks_no_task {X Y : Type} (func : X -> M Y) (sched : list nat)
  (w : World) :
  run_tasks func [] sched w = ([], w).
Proof.
  induction sched as [|i sched IH]; [reflexivity|].
  cbn [run_tasks]. now destruct i.
Qed.

(** X22.  Without items nothing is posted and the call returns the empty
    list, whatever the positive chunk size. *)
Theorem pool_requests_no_items (sched : list nat) (chunksize : nat)
  (w : World) :
  CHUNKSIZE self = Some chunksize ->
  0 < chunksize ->
  _pool_requests extract self sched payload_func [] w = (Ok [], w).
Proof.
  intros Hsize Hpos. unfold _pool_requests. rewrite Hsize.
  destruct chunksize as [|n]; [lia|].
  assert (Hnone : chunkify (@nil I) (S n) = []).
  { unfold chunkify. cbn [length].
    replace (0 + S n - 1) with n by lia.
    now rewrite (Nat.div_small n (S n)) by lia. }
  rewrite Hnone. unfold mbind, thread_pool_map.
  now rewrite run_tasks_no_task.
Qed.




(** *** What the pool posts and returns *)





(** *** Pooled operations without container *)

Lemma run_tasks_forall {X Y : Type} (func : X -> M Y) (tasks : list X)
  (P : nat -> result Y -> Prop) :
  (forall i x w, nth_error tasks i = Some x -> P i (fst (func x w))) ->
  forall sched w,
    (forall i, In i sched -> i < length tasks) ->
    Forall (fun ir => P (fst ir) (snd ir)) (fst (run_tasks func tasks sched w))
    /\ map fst (fst (run_tasks func tasks sched w)) = sched.
Proof.
  intros HP. induction sched as [|i sched IH]; intros w Hbound.
  - split; [constructor|reflexivity].
  - cbn [run_tasks].
    assert (Hi : i < length tasks) by (apply Hbound; now left).
    destruct (nth_error tasks i) as [x|] eqn:Hnth;
      [|apply nth_error_None in Hnth; lia].
    pose proof (HP i x w Hnth) as Hx.
    destruct (func x w) as [ri w1]. cbn [fst] in Hx.
    destruct (IH w1) as [Hall Hfst]; [intros j Hj; apply Hbound; now right|].
    destruct (run_tasks func tasks sched w1) as [completed w2].
    cbn [fst] in *. split; [now constructor|]. cbn [map fst]. now f_equal.
Qed.

Lemma first_failure_none {Y : Type} (P : nat -> list Y -> Prop)
  (completed : list (nat * result (list Y))) :
  Forall (fun ir => exists l, snd ir = Ok l /\ P (fst ir) l) completed ->
  first_failure completed = None.
Proof.
  induction 1 as [|[i r] completed (l & Hr & _) _ IH]; [reflexivity|].
  cbn [snd] in Hr. subst r. exact IH.
Qed.

Lemma filed_recorded {Y : Type} (P : nat -> list Y -> Prop)
  (completed : list (nat * result (list Y))) (i : nat) :
  Forall (fun ir => exists l, snd ir = Ok l /\ P (fst ir) l) completed ->
  In i (map fst completed) ->
  exists l, filed i completed = [l] /\ P i l.
Proof.
  induction 1 as [|[j r] completed (l & Hr & Hl) _ IH]; [contradiction|].
  cbn [snd fst] in Hr, Hl. subst r. cbn [map fst filed In].
  destruct (Nat.eqb_spec i j) as [->|Hne].
  - intros _. now exists l.
  - intros [Hj|Hin]; [congruence|auto].
Qed.

Lemma concat_filed_length {Y : Type} (f : nat -> list (list Y))
  (h : nat -> nat) (Q : Y -> Prop) (l : list nat) :
  (forall i, In i l ->
     exists x, f i = [x] /\ length x = h i /\ Forall Q x) ->
  length (concat (flat_map f l)) = list_sum (map h l)
  /\ Forall Q (concat (flat_map f l)).
Proof.
  induction l as [|i l IH]; intros Hf; [split; [reflexivity|constructor]|].
  destruct (Hf i) as (x & Hx & Hlen & HQ); [now left|].
  destruct IH as [IHlen IHQ]; [intros j Hj; apply Hf; now right|].
  cbn [flat_map map list_sum]. rewrite Hx. cbn [app concat].
  split.
  - now rewrite length_app, Hlen, IHlen.
  - apply Forall_app. now split.
Qed.

(** X24.  For a pooled operation without container name ([DeleteItem]): when
    the server answers every chunk with as many response messages as the
    chunk has items, and none of them raises, the call returns exactly one
    status tuple per item of the caller, whatever the order in which the
    chunks complete. *)
Theorem pooled_status_per_item (sched : list nat) (items : list I)
  (chunksize : nat) (w : World) :
  py_not (element_container_name self) = true ->
  CHUNKSIZE self = Some chunksize ->
  0 < chunksize ->
  Permutation sched (seq 0 (length (chunkify items chunksize))) ->
  (forall chunk w', In chunk (chunkify items chunksize) ->
     exists response outcomes,
       fst (_get_response_xml self (payload_func chunk) w') = Ok response
       /\ length response = length chunk
       /\ _get_elements_in_response extract self response = Ok outcomes) ->
  exists outcomes,
    fst (_pool_requests extract self sched payload_func items w) = Ok outcomes
    /\ length outcomes = length items
    /\ Forall (fun outcome => exists success message,
                                outcome = Status success message) outcomes.
Proof.
  intros Hname Hsize Hpos Hperm Hserver.
  unfold _pool_requests. rewrite Hsize.
  destruct chunksize as [|n]; [lia|].
  set (tasks := chunkify items (S n)) in *.
  set (is_status := fun outcome : entry A =>
         exists success message, outcome = Status success message).
  set (P := fun (i : nat) (l : list (entry A)) =>
         length l = length (nth i tasks []) /\ Forall is_status l).
  unfold mbind, thread_pool_map, ret.
  destruct (run_tasks_forall
              (fun n => _get_elements extract self (payload_func n)) tasks
              (fun i r => exists l, r = Ok l /\ P i l)) with (sched := sched)
              (w := w) as [Hall Hfst].
  { intros i chunk w' Hnth.
    destruct (Hserver chunk w' (nth_error_In _ _ Hnth))
      as (response & outcomes & Hresponse & Hlen & Houtcomes).
    exists outcomes. unfold _get_elements, mbind, lift.
    destruct (_get_response_xml self (payload_func chunk) w') as [r w1].
    cbn [fst] in Hresponse. subst r. cbn [fst]. split; [assumption|].
    unfold _get_elements_in_response in Houtcomes.
    apply response_loop_sound in Houtcomes.
    destruct Houtcomes as (parts & Hparts & ->). cbn [app].
    unfold P. rewrite (nth_error_nth _ _ [] Hnth), <- Hlen.
    clear Hlen.
    induction Hparts as [|msg part response parts Hmsg _ [IHlen IHall]];
      [split; [reflexivity|constructor]|].
    destruct Hmsg as [container found Hc Hx | Hc | cls value Hc Hw].
    - now apply no_name_no_element in Hc.
    - cbn [concat app length]. split; [now f_equal|].
      constructor; [now exists true, None|assumption].
    - cbn [concat app length]. split; [now f_equal|].
      constructor; [now eexists _, _|assumption]. }
  { intros i Hi. apply (Permutation_in _ Hperm) in Hi.
    now apply in_seq in Hi. }
  destruct (run_tasks _ tasks sched w) as [completed w'].
  cbn [fst] in Hall, Hfst.
  rewrite (@first_failure_none _ P completed Hall). cbn [fst].
  eexists. split; [reflexivity|].
  destruct (@concat_filed_length _ (fun i => filed i completed)
              (fun i => length (nth i tasks [])) is_status
              (seq 0 (length tasks))) as [Hlen Hstatus].
  { intros i Hi.
    destruct (@filed_recorded _ P completed i Hall) as (l & Hl & Hlen & HQ).
    - rewrite Hfst. apply Permutation_sym in Hperm.
      now apply (Permutation_in _ Hperm).
    - now exists l. }
  split; [|assumption].
  rewrite Hlen, (map_nth_seq (@length I) [] tasks), <- length_concat.
  unfold tasks. now rewrite chunkify_concat.
Qed.

End MorePool.

End Operations_.

(** * The further properties on the sample environment *)

Section OnFixtures.
Import Sample.
#[local] Existing Instance Sample.errors.
#[local] Existing Instance Sample.collaborators.
#[local] Existing Instance Fixtures.setter.

Lemma container_returned_only_for_no_error_witness :
  response_code_of success_class_no_error = Some "NoError"
  /\ get success_class_no_error "ResponseClass" = Some "Success"
     /\ py_not (Some (qname MNS "Items")) = false
     /\ find success_class_no_error (py_str (Some (qname MNS "Items")))
        = Some (Elem (qname MNS "Items") [] None [item "a"]).
Proof.
  exact (@container_returned_only_for_no_error errors collaborators
           success_class_no_error (Some (qname MNS "Items"))
           (RElement (Elem (qname MNS "Items") [] None [item "a"]))
           eq_refl).
Defined.

(** A stopped batch of class ['Error'] after one deletion. *)
Lemma timeout_and_stopped_batch_abort_witness :
  response_loop (_get_elements_in_container (DeleteItem exchange2010))
    (DeleteItem exchange2010) [Fixtures.error_batch_stopped; delete_ok]
    [Status true None]
  = Raise (EWS cErrorBatchProcessingStopped
             (message_text_of Fixtures.error_batch_stopped)).
Proof.
  refine (proj2
    (@timeout_and_stopped_batch_abort errors collaborators Element
       (_get_elements_in_container (DeleteItem exchange2010))
       (DeleteItem exchange2010) Fixtures.error_batch_stopped [delete_ok]
       [Status true None] "ErrorBatchProcessingStopped"
       cErrorBatchProcessingStopped _ _ _ _) _ _).
  - reflexivity.
  - discriminate.
  - discriminate.
  - reflexivity.
  - reflexivity.
  - discriminate.
Defined.

(** A denied warning between two deletions. *)
Lemma first_error_aborts_response_witness :
  _get_elements_in_response
    (_get_elements_in_container (DeleteItem exchange2010))
    (DeleteItem exchange2010)
    ([delete_ok] ++ warning_access_denied :: [delete_ok])
  = Raise (EWS cErrorAccessDenied (Some "Access is denied.")).
Proof.
  apply (@first_error_aborts_response errors collaborators Element
           (_get_elements_in_container (DeleteItem exchange2010))
           (DeleteItem exchange2010) [delete_ok] [[Status true None]]
           warning_access_denied [delete_ok]).
  - constructor; [|constructor]. apply contributes_success. reflexivity.
  - reflexivity.
  - intros cls value [= <- _]. reflexivity.
Defined.

Lemma elements_are_the_named_children_witness :
  exists elems,
    _get_elements_in_container (FindFolder exchange2010) folders = Ok elems
    /\ Permutation elems
         (filter (fun c => existsb (String.eqb (tag c))
                             (qname TNS "Folder"
                              :: extra_element_names (FindFolder exchange2010)))
                 (children folders)).
Proof.
  apply (@elements_are_the_named_children errors (FindFolder exchange2010)
           folders (qname TNS "Folder")).
  - reflexivity.
  - repeat (constructor; [cbn; intuition discriminate|]). constructor.
Defined.

Lemma soap_payload_returns_own_messages_witness :
  exists body response response_messages,
    find (envelope "GetItem" [two_items]) (qname SOAPNS "Body") = Some body
    /\ find body (qname MNS (py_str (SERVICE_NAME
                                       (GetItem exchange2010 "Message"))
                             ++ "Response")) = Some response
    /\ find response (qname MNS "ResponseMessages") = Some response_messages
    /\ [two_items]
       = filter (fun m => String.eqb (tag m)
                   (qname MNS (py_str (SERVICE_NAME
                                         (GetItem exchange2010 "Message"))
                               ++ "ResponseMessage")))
                (children response_messages)
    /\ Forall (fun m => tag m
                        = qname MNS (py_str (SERVICE_NAME
                                               (GetItem exchange2010 "Message"))
                                     ++ "ResponseMessage")
                        /\ In m (children response_messages))
              [two_items].
Proof.
  apply (@soap_payload_returns_own_messages errors collaborators
           (GetItem exchange2010 "Message") (envelope "GetItem" [two_items])
           [two_items]).
  reflexivity.
Defined.

(** A request answered with a fault. *)
Lemma fault_response_raises_typed_error_witness :
  _get_elements (_get_elements_in_container (GetItem exchange2010 "Message"))
    (GetItem exchange2010 "Message") (get_xml ["a"%char])
    (Fixtures.serving ["fault.xml"] [])
  = (Raise (EWS cErrorAccessDenied (detail_msg detail_access_denied)),
     Fixtures.serving [] ([] ++ [get_xml ["a"%char]])).
Proof.
  apply (@fault_response_raises_typed_error errors collaborators
           Fixtures.canned Element
           (_get_elements_in_container (GetItem exchange2010 "Message"))
           (GetItem exchange2010 "Message") (get_xml ["a"%char])
           (Fixtures.serving ["fault.xml"] []) "fault.xml" []
           Fixtures.fault_envelope
           (Elem (qname SOAPNS "Body") [] None [fault_access_denied])
           fault_access_denied detail_access_denied cErrorAccessDenied);
    reflexivity.
Defined.

Lemma page_invariant_witness :
  exists message rootfolder flag total,
    [find_item_message last_page] = [message]
    /\ _get_element_container message (Some (qname MNS "RootFolder"))
       = Ok (RElement rootfolder)
    /\ get rootfolder "IncludesLastItemInRange" = Some flag
    /\ py_int (get rootfolder "TotalItemsInView") = Ok total
    /\ (last_item_flag flag = true -> 0%Z = 0%Z)
    /\ (total = 0%Z -> Some last_page = None /\ 0%Z = 0%Z)
    /\ (total <> 0%Z -> Some last_page = Some rootfolder).
Proof.
  apply (@page_invariant errors collaborators [find_item_message last_page]
           (Some last_page) 0%Z).
  reflexivity.
Defined.

(** Two pages, at offsets 0 and 1. *)
Lemma retrieval_collects_pages_in_order_witness :
  paged_loop 2 find_item_payload (FindItem exchange2010 "Message") 0%Z []
    (serving ["first_page_no_offset.xml"; "last_page.xml"] [])
  = Some (Ok ([] ++ ([item "a"; item "b"] ++ [item "c"])),
          serving [] [find_item_request "0"; find_item_request "1"]).
Proof.
  refine (proj2 (proj1
    (@retrieval_collects_pages_in_order errors collaborators canned
       find_item_payload (FindItem exchange2010 "Message") 0%Z
       (serving ["first_page_no_offset.xml"; "last_page.xml"] [])
       (serving [] [find_item_request "0"; find_item_request "1"]) [])
    [find_item_request "0"; find_item_request "1"]
    ([item "a"; item "b"] ++ [item "c"]) _) 2 (le_n 2)).
  apply retrieves_more
    with (Some first_page_no_offset) 1%Z
         (serving ["last_page.xml"] [find_item_request "0"]).
  - apply fetches_page with (find_item_message first_page_no_offset);
      reflexivity.
  - discriminate.
  - reflexivity.
  - apply retrieves_last with (Some last_page); [|reflexivity].
    apply fetches_page with (find_item_message last_page); reflexivity.
Defined.

(** A remote end that always has a next page: seven turns are not enough. *)
Lemma retrieval_runs_while_pages_follow_witness :
  paged_loop 7 find_item_payload (FindItem exchange2010 "Message") 0%Z []
    (@Build_World errors Fixtures.endless tt [])
  = None.
Proof.
  apply (@retrieval_runs_while_pages_follow errors collaborators
           Fixtures.endless find_item_payload
           (FindItem exchange2010 "Message")).
  intros offset w.
  exists (find_item_request
            (DecimalString.NilZero.string_of_int (Z.to_int offset))),
         (Some Fixtures.page_offset_2), 2%Z,
         (@Build_World errors Fixtures.endless (remote w)
            (posted w
             ++ [find_item_request
                   (DecimalString.NilZero.string_of_int (Z.to_int offset))])),
         [item "a"; item "b"].
  split; [|split].
  - apply fetches_page with (find_item_message Fixtures.page_offset_2);
      reflexivity.
  - discriminate.
  - reflexivity.
Defined.

Lemma retrieval_posts_payloads_only_witness :
  exists offsets payloads,
    posted (serving [] [find_item_request "0"])
    = posted (serving ["empty_view_more.xml"] []) ++ payloads
    /\ Forall2 (fun o payload => find_item_payload o = Ok payload)
               offsets payloads
    /\ (offsets = [] \/ hd_error offsets = Some 0%Z).
Proof.
  apply (@retrieval_posts_payloads_only errors collaborators canned
           find_item_payload (FindItem exchange2010 "Message") 5
           (serving ["empty_view_more.xml"] [])
           (serving [] [find_item_request "0"]) (Raise AssertionError)).
  reflexivity.
Defined.

(** A last page that still carries an offset. *)
Lemma retrieval_ends_at_offset_zero_witness :
  paged_loop 1 find_item_payload (FindItem exchange2010 "Message") 0%Z []
    (serving ["last_page.xml"] [])
  = Some (Ok ([] ++ [item "c"]), serving [] [find_item_request "0"]).
Proof.
  refine (@retrieval_ends_at_offset_zero errors collaborators canned
            find_item_payload (FindItem exchange2010 "Message") 0%Z
            (find_item_request "0") (serving ["last_page.xml"] [])
            (serving [] [find_item_request "0"])
            (find_item_message last_page) last_page "true" 3%Z [item "c"]
            eq_refl eq_refl eq_refl eq_refl eq_refl _ 0 [] eq_refl _).
  - discriminate.
  - left. reflexivity.
Defined.

(** A first page that announces offset 2. *)
Lemma retrieval_continues_at_indexed_offset_witness :
  paged_loop 2 find_item_payload (FindItem exchange2010 "Message") 0%Z []
    (Fixtures.serving ["page_offset_2.xml"; "last_page.xml"] [])
  = paged_loop 1 find_item_payload (FindItem exchange2010 "Message") 2%Z
      ([] ++ [item "a"; item "b"])
      (Fixtures.serving ["last_page.xml"] [find_item_request "0"]).
Proof.
  refine (@retrieval_continues_at_indexed_offset errors collaborators
            Fixtures.canned find_item_payload
            (FindItem exchange2010 "Message") 0%Z (find_item_request "0")
            (Fixtures.serving ["page_offset_2.xml"; "last_page.xml"] [])
            (Fixtures.serving ["last_page.xml"] [find_item_request "0"])
            (find_item_message Fixtures.page_offset_2) Fixtures.page_offset_2
            "false" 3%Z [item "a"; item "b"]
            eq_refl eq_refl eq_refl eq_refl eq_refl _ 1 [] "2" 2%Z
            eq_refl eq_refl eq_refl eq_refl _); discriminate.
Defined.

(** A page whose offset is no number. *)
Lemma page_faults_abort_retrieval_witness :
  paged_loop 1 find_item_payload (FindItem exchange2010 "Message") 0%Z []
    (Fixtures.serving ["page_bad_offset.xml"] [])
  = Some (Raise ValueError, Fixtures.serving [] [find_item_request "0"]).
Proof.
  refine (proj1
    (@page_faults_abort_retrieval errors collaborators Fixtures.canned
       find_item_payload (FindItem exchange2010 "Message") 0%Z
       (find_item_request "0")
       (Fixtures.serving ["page_bad_offset.xml"] [])
       (Fixtures.serving [] [find_item_request "0"])
       (find_item_message Fixtures.page_bad_offset) Fixtures.page_bad_offset
       "false" 3%Z eq_refl eq_refl eq_refl eq_refl eq_refl _ 0 [])
    "two" eq_refl eq_refl eq_refl).
  discriminate.
Defined.

(** [FindItem] asked for a deep traversal of a folder of messages, its
    element name being that of another item type before the call. *)
Lemma find_item_requests_are_shallow_witness :
  FindItem_call 3 (FindItem exchange2010 "CalendarItem")
    (Fixtures.folder_on exchange2010) None None "IdOnly" "Deep"
    (serving ["last_page.xml"] [])
  = Some (Ok [item "c"],
          serving []
            [FindItem_get_payload (FindItem exchange2010 "CalendarItem")
               (Fixtures.folder_on exchange2010) None None "IdOnly" "Shallow"
               0%Z]).
Proof.
  refine (proj1
    (@find_item_requests_are_shallow errors collaborators canned
       Fixtures.setter 3 (FindItem exchange2010 "CalendarItem")
       (Fixtures.folder_on exchange2010) None None "IdOnly" "Shallow"
       (serving ["last_page.xml"] []) _ (Ok [item "c"]) _) "Deep").
  reflexivity.
Defined.

(** A folder listing of more than one page against Exchange 2007. *)
Lemma find_folder_cannot_page_before_2010_witness :
  exists request,
    FindFolder_get_payload (FindFolder exchange2007)
      (Fixtures.folder_on exchange2007) None "IdOnly" "Deep" 0%Z = Ok request
    /\ FindFolder_call 2 (FindFolder exchange2007)
         (Fixtures.folder_on exchange2007) None "IdOnly" "Deep"
         (Fixtures.serving ["folders_more.xml"; "last_page.xml"] [])
       = Some (Raise AssertionError,
               Fixtures.serving ["last_page.xml"] [request]).
Proof.
  eexists. split; [reflexivity|].
  refine (proj2 (proj2
    (@find_folder_cannot_page_before_2010 errors collaborators
       Fixtures.canned Fixtures.setter (FindFolder exchange2007)
       (Fixtures.folder_on exchange2007) None "IdOnly" "Deep" _))
    0 (Fixtures.serving ["folders_more.xml"; "last_page.xml"] []) _
    (Some Fixtures.folders_more) 2%Z _ [plain_folder; calendar_folder]
    _ _ _).
  - reflexivity.
  - apply fetches_page with Fixtures.folders_message; reflexivity.
  - discriminate.
  - reflexivity.
Defined.

Lemma time_zones_call_posts_once_witness :
  posted (snd (GetServerTimeZones_call (GetServerTimeZones exchange2010)
                 [("returnfulltimezonedata", true)]
                 (serving ["last_page.xml"] [])))
  = posted (serving ["last_page.xml"] [])
    ++ [Elem ("m:" ++ py_str (SERVICE_NAME (GetServerTimeZones exchange2010)))
             [("ReturnFullTimeZoneData", "true")] None []].
Proof.
  refine (proj2 (proj2
    (@time_zones_call_posts_once errors collaborators canned
       (GetServerTimeZones exchange2010) (serving ["last_page.xml"] []) _))
    true).
  discriminate.
Defined.


Lemma pool_requests_no_items_witness :
  _pool_requests
    (_get_elements_in_container (GetItem exchange2010 "Message"))
    (GetItem exchange2010 "Message") [0; 1] get_xml [] (store [])
  = (Ok [], store []).
Proof.
  apply (@pool_requests_no_items errors collaborators item_store ascii
           Element
           (_get_elements_in_container (GetItem exchange2010 "Message"))
           (GetItem exchange2010 "Message") get_xml [0; 1] 100 (store [])).
  - reflexivity.
  - lia.
Defined.


(** Three deletions, acknowledged one by one. *)
Lemma pooled_status_per_item_witness :
  exists outcomes,
    fst (_pool_requests
           (_get_elements_in_container (DeleteItem exchange2010))
           (DeleteItem exchange2010) [0] Fixtures.delete_xml
           ["a"; "b"; "c"]%char
           (@Build_World errors Fixtures.acknowledging tt []))
    = Ok outcomes
    /\ length outcomes = length ["a"; "b"; "c"]%char
    /\ Forall (fun outcome : entry Element =>
                 exists success message, outcome = Status success message)
              outcomes.
Proof.
  apply (@pooled_status_per_item errors collaborators Fixtures.acknowledging
           ascii Element
           (_get_elements_in_container (DeleteItem exchange2010))
           (DeleteItem exchange2010) Fixtures.delete_xml [0]
           ["a"; "b"; "c"]%char 25
           (@Build_World errors Fixtures.acknowledging tt [])).
  - reflexivity.
  - reflexivity.
  - lia.
  - apply Permutation_refl.
  - intros chunk w' Hin. vm_compute in Hin. destruct Hin as [<- | []].
    eexists. eexists. split; [reflexivity|]. split; reflexivity.
Defined.



(** A response code that is the name of the module itself. *)
Lemma raise_errors_non_class_attribute_witness :
  _raise_errors (Some "__name__") (Some "Access is denied.") None
  = Raise TypeError
  /\ _raise_errors (Some "__name__") (Some "Access is denied.") None
     <> Raise (EWS TransportError
          (Some ("Unknown ResponseCode in ResponseMessage: " ++ "__name__"
                 ++ " (MessageText: " ++ py_str (Some "Access is denied.")
                 ++ ", MessageXml: " ++ py_str None ++ ")")%string)).
Proof.
  apply (@raise_errors_non_class_attribute errors "__name__"
           (Some "Access is denied.") None).
  - discriminate.
  - discriminate.
  - reflexivity.
  - reflexivity.
Defined.

End OnFixtures.
